(** * Verification of the auth / notification backend ([main.py])

    A shallow embedding of the request handlers of [main.py] over an explicit
    model of the document store they talk to, and the properties of the
    handlers stated in the specification.

    Conventions.
    - A Python [str] is a Rocq [string] holding its UTF-8 bytes, a lone
      surrogate written as the three bytes its code point would take.
      [pw.encode("utf-8")] gives the bytes of a string without surrogates
      and raises on one that holds a surrogate; slicing by characters
      ([s[:50]]) counts code points, i.e. bytes that are not continuation
      bytes.
    - A stored document (a Python [dict] / BSON document) is a
      [gmap string value].
    - A collection is the list of its documents in insertion order and the
      database maps collection names to collections.
    - A handler takes the global [db] handle ([None] when the datastore is
      unavailable) and returns its outcome together with the handle after
      the call.
    - The driver is modelled by what the handlers use of it: a filter
      matches the documents whose fields equal the given values,
      [find_one] gives the first match in insertion order, [sort] orders by
      the comparison order of stored values, [update_many] sets a field of
      every match.  A write the datastore is asked for is carried out.
    - The clock and the identifier of an insert come from the environment
      of the request ([env]). *)

From Stdlib Require Import ZArith List Ascii String Lia Permutation Sorted.
From stdpp Require Import base option list gmap strings sorting.

Local Open Scope string_scope.
Local Open Scope list_scope.
Local Open Scope Z_scope.

(** ** SHA-256 (FIPS 180-4), the function behind [hashlib.sha256] *)

Module SHA256.

Definition mask32 : Z := 0xffffffff.

(** 32-bit addition with wrap-around. *)
Definition add32 (x y : Z) : Z := (x + y) mod 2 ^ 32.

Definition rotr (n x : Z) : Z :=
  Z.lor (Z.shiftr x n) (Z.land (Z.shiftl x (32 - n)) mask32).

Definition Ch (x y z : Z) : Z :=
  Z.lxor (Z.land x y) (Z.land (Z.lxor x mask32) z).

Definition Maj (x y z : Z) : Z :=
  Z.lxor (Z.lxor (Z.land x y) (Z.land x z)) (Z.land y z).

Definition Sigma0 (x : Z) : Z :=
  Z.lxor (Z.lxor (rotr 2 x) (rotr 13 x)) (rotr 22 x).

Definition Sigma1 (x : Z) : Z :=
  Z.lxor (Z.lxor (rotr 6 x) (rotr 11 x)) (rotr 25 x).

Definition sigma0 (x : Z) : Z :=
  Z.lxor (Z.lxor (rotr 7 x) (rotr 18 x)) (Z.shiftr x 3).

Definition sigma1 (x : Z) : Z :=
  Z.lxor (Z.lxor (rotr 17 x) (rotr 19 x)) (Z.shiftr x 10).

(** The primes up to 311, the first 64. *)
Definition is_prime (n : Z) : bool :=
  forallb (fun d => negb (n mod d =? 0))
          (map Z.of_nat (seq 2 (Z.to_nat n - 2))).

Definition primes : list Z :=
  List.filter is_prime (map Z.of_nat (seq 2 310)).

(** Integer cube root by bisection: the largest [r + x] with
    [x < 2 ^ bits] whose cube is at most [n]. *)
Fixpoint cbrt_bits (bits : nat) (r n : Z) : Z :=
  match bits with
  | O => r
  | S b =>
      let r' := r + 2 ^ Z.of_nat b in
      if r' ^ 3 <=? n then cbrt_bits b r' n else cbrt_bits b r n
  end.

(** Round constants: the first 32 bits of the fractional parts of the
    cube roots of the first 64 primes. *)
Definition K : list Z :=
  Eval vm_compute in
    map (fun p => cbrt_bits 40 0 (p * 2 ^ 96) mod 2 ^ 32) primes.

(** Initial hash value: the first 32 bits of the fractional parts of the
    square roots of the first 8 primes. *)
Definition H0 : list Z :=
  Eval vm_compute in
    map (fun p => Z.sqrt (p * 2 ^ 64) mod 2 ^ 32) (firstn 8 primes).

(** Big-endian bytes of the low [8 * n] bits of [x]. *)
Fixpoint be_bytes (n : nat) (x : Z) : list Z :=
  match n with
  | O => []
  | S n' => Z.land (Z.shiftr x (8 * Z.of_nat n')) 0xff :: be_bytes n' x
  end.

(** Padding: a [0x80] byte, zero bytes up to 56 modulo 64, and the bit
    length of the message on 64 bits. *)
Definition pad (msg : list Z) : list Z :=
  let len := Z.of_nat (length msg) in
  msg ++ [0x80] ++ repeat 0 (Z.to_nat ((55 - len) mod 64))
      ++ be_bytes 8 (8 * len).

(** The 32-bit big-endian words of a byte sequence. *)
Fixpoint words (bs : list Z) : list Z :=
  match bs with
  | b0 :: b1 :: b2 :: b3 :: rest =>
      (Z.lor (Z.shiftl b0 24)
         (Z.lor (Z.shiftl b1 16) (Z.lor (Z.shiftl b2 8) b3)))
        :: words rest
  | _ => []
  end.

(** Message schedule, most recent word first: [W_t] is computed from
    [W_(t-2)], [W_(t-7)], [W_(t-15)] and [W_(t-16)]. *)
Fixpoint extend (n : nat) (rev_w : list Z) : list Z :=
  match n with
  | O => rev_w
  | S n' =>
      let w k := nth k rev_w 0 in
      let wt :=
        add32 (add32 (sigma1 (w 1%nat)) (w 6%nat))
              (add32 (sigma0 (w 14%nat)) (w 15%nat)) in
      extend n' (wt :: rev_w)
  end.

Definition schedule (block : list Z) : list Z :=
  rev (extend 48 (rev block)).

Definition round (st : list Z) (kw : Z * Z) : list Z :=
  match st with
  | [a; b; c; d; e; f; g; h] =>
      let t1 :=
        add32 (add32 (add32 h (Sigma1 e))
                     (add32 (Ch e f g) (fst kw))) (snd kw) in
      let t2 := add32 (Sigma0 a) (Maj a b c) in
      [add32 t1 t2; a; b; c; add32 d t1; e; f; g]
  | _ => st
  end.

Definition compress (h : list Z) (block : list Z) : list Z :=
  let st := fold_left round (combine K (schedule block)) h in
  map (fun p => add32 (fst p) (snd p)) (combine h st).

(** The 16-word blocks of the padded message. *)
Fixpoint blocks (fuel : nat) (ws : list Z) : list (list Z) :=
  match fuel, ws with
  | S fuel', _ :: _ => firstn 16 ws :: blocks fuel' (skipn 16 ws)
  | _, _ => []
  end.

Definition digest (msg : list Z) : list Z :=
  let ws := words (pad msg) in
  flat_map (be_bytes 4) (fold_left compress (blocks (length ws) ws) H0).

Definition hex_digit (n : Z) : ascii :=
  nth (Z.to_nat n)
      (list_ascii_of_string "0123456789abcdef") "0"%char.

Fixpoint hex (bs : list Z) : string :=
  match bs with
  | [] => EmptyString
  | b :: rest =>
      String (hex_digit (Z.shiftr b 4))
             (String (hex_digit (Z.land b 0xf)) (hex rest))
  end.

Definition hexdigest (msg : list Z) : string := hex (digest msg).

End SHA256.

(** The bytes of a string. *)
Definition utf8_bytes (s : string) : list Z :=
  map (fun c => Z.of_N (N_of_ascii c)) (list_ascii_of_string s).

(** [sha256(bytes).hexdigest()] of the bytes of a string. *)
Definition sha256_hex (s : string) : string :=
  SHA256.hexdigest (utf8_bytes s).

(** ** Python strings *)

(** A byte of the form [10xxxxxx] continues the code point started before
    it. *)
Definition is_continuation (c : ascii) : bool :=
  let n := N_of_ascii c in ((128 <=? n) && (n <? 192))%N.

(** A lone surrogate (U+D800 to U+DFFF), which a Python [str] may hold
    and UTF-8 has no encoding for, is written as the three bytes its code
    point would take: [ED], a byte from [A0] to [BF], a continuation byte.
    No encoded character starts that way. *)
Fixpoint has_surrogate (s : string) : bool :=
  match s with
  | String c ((String c' _) as rest) =>
      ((N_of_ascii c =? 237)%N
       && (160 <=? N_of_ascii c')%N && (N_of_ascii c' <=? 191)%N)
      || has_surrogate rest
  | _ => false
  end.

(** [len(s)]: the number of code points. *)
Fixpoint py_len (s : string) : nat :=
  match s with
  | EmptyString => O
  | String c rest =>
      if is_continuation c then py_len rest else S (py_len rest)
  end.

(** [s[:n]]: the first [n] code points. *)
Fixpoint py_take (n : nat) (s : string) : string :=
  match s with
  | EmptyString => EmptyString
  | String c rest =>
      if is_continuation c then String c (py_take n rest)
      else match n with
           | O => EmptyString
           | S n' => String c (py_take n' rest)
           end
  end.

(** Zero-padded decimal of fixed width ([%0wd]). *)
Fixpoint dec (width : nat) (x : Z) : string :=
  match width with
  | O => EmptyString
  | S w =>
      String (ascii_of_N (48 + Z.to_N ((x / 10 ^ Z.of_nat w) mod 10)))
             (dec w x)
  end.

(** ** Timestamps

    A BSON date is a number of milliseconds since the Unix epoch; the
    driver hands it back as a naive [datetime] in UTC. *)

Module Datetime.

(** Year, month and day of a number of days since 1970-01-01 in the
    proleptic Gregorian calendar. *)
Definition civil (days : Z) : Z * Z * Z :=
  let z := days + 719468 in
  let era := z / 146097 in
  let doe := z mod 146097 in
  let yoe := (doe - doe / 1460 + doe / 36524 - doe / 146096) / 365 in
  let doy := doe - (365 * yoe + yoe / 4 - yoe / 100) in
  let mp := (5 * doy + 2) / 153 in
  let d := doy - (153 * mp + 2) / 5 + 1 in
  let m := if mp <? 10 then mp + 3 else mp - 9 in
  let y := yoe + era * 400 + (if m <=? 2 then 1 else 0) in
  (y, m, d).

(** [datetime.isoformat(sep)]: [YYYY-MM-DD], the separator, [HH:MM:SS]
    and, when the microsecond is not zero, [.ffffff]. *)
Definition format (sep : string) (t : Z) : string :=
  let '(y, m, d) := civil (t / 86400000) in
  let ms := t mod 86400000 in
  let frac := ms mod 1000 in
  dec 4 y +:+ "-" +:+ dec 2 m +:+ "-" +:+ dec 2 d +:+ sep
    +:+ dec 2 (ms / 3600000) +:+ ":" +:+ dec 2 (ms / 60000 mod 60)
    +:+ ":" +:+ dec 2 (ms / 1000 mod 60)
    +:+ (if frac =? 0 then EmptyString else "." +:+ dec 6 (frac * 1000)).

Definition isoformat (t : Z) : string := format "T" t.

End Datetime.

(** ** Values and documents *)

(** The values a stored document holds: null, booleans, integers, strings,
    dates and object identifiers (twelve bytes, as a number). *)
Inductive value : Type :=
| VNone
| VBool (b : bool)
| VInt (n : Z)
| VStr (s : string)
| VDate (t : Z)
| VOid (o : Z).

Global Instance value_eq_dec : EqDecision value.
Proof. solve_decision. Defined.

(** [bool(v)] *)
Definition py_bool (v : value) : bool :=
  match v with
  | VNone => false
  | VBool b => b
  | VInt n => negb (n =? 0)
  | VStr s => negb (bool_decide (s = EmptyString))
  | VDate _ => true
  | VOid _ => true
  end.

(** [str(v)]; an [ObjectId] prints as the 24 hexadecimal digits of its
    twelve bytes. *)
Definition py_str (v : value) : string :=
  match v with
  | VNone => "None"
  | VBool true => "True"
  | VBool false => "False"
  | VInt n => pretty.pretty n
  | VStr s => s
  | VDate t => Datetime.format " " t
  | VOid o => SHA256.hex (SHA256.be_bytes 12 o)
  end.

(** A document: field name to value. *)
Abbreviation document := (gmap string value).

(** [d.get(key)] and [d.get(key, default)] *)
Definition dict_get (d : document) (key : string) : value :=
  default VNone (d !! key).

Definition dict_get_default (d : document) (key : string) (dflt : value)
  : value :=
  default dflt (d !! key).

(** Truth value of what [find_one] returns: [None] and the empty dict are
    false. *)
Definition truthy (r : option document) : bool :=
  match r with
  | None => false
  | Some d => negb (bool_decide (d = ∅))
  end.

(** ** Collections and queries *)

Abbreviation collection := (list document).

(** A filter [{k1: v1, ...}] selects the documents whose field [ki] holds
    exactly [vi], for every [i]. *)
Definition query : Type := list (string * value).

Definition matches (q : query) (d : document) : bool :=
  forallb (fun kv => bool_decide (d !! kv.1 = Some kv.2)) q.

(** [collection.find(q)], in insertion order. *)
Definition find (q : query) (c : collection) : collection :=
  List.filter (matches q) c.

(** [collection.find_one(q)] *)
Definition find_one (q : query) (c : collection) : option document :=
  head (find q c).

(** [collection.update_many(q, {"$set": {field: v}})] *)
Definition update_many (q : query) (field : string) (v : value)
    (c : collection) : collection :=
  map (fun d => if matches q d then <[field := v]> d else d) c.

(** *** Sort order

    Values of different kinds compare by kind (null, numbers, strings,
    object identifiers, booleans, dates, in increasing order); values of one
    kind compare by content.  A missing field sorts as null. *)
Definition kind_rank (v : value) : Z :=
  match v with
  | VNone => 0
  | VInt _ => 1
  | VStr _ => 2
  | VOid _ => 3
  | VBool _ => 4
  | VDate _ => 5
  end.

Definition value_le (a b : value) : Prop :=
  match a, b with
  | VNone, VNone => True
  | VInt x, VInt y => x <= y
  | VStr x, VStr y => String.le x y
  | VOid x, VOid y => x <= y
  | VBool x, VBool y => implb x y
  | VDate x, VDate y => x <= y
  | _, _ => kind_rank a < kind_rank b
  end.

Global Instance value_le_dec : RelDecision value_le.
Proof. intros [] []; simpl; apply _. Defined.

Definition sort_key (field : string) (d : document) : value :=
  default VNone (d !! field).

(** [d1] may come before [d2] in a descending sort on [field]. *)
Definition desc_by (field : string) (d1 d2 : document) : Prop :=
  value_le (sort_key field d2) (sort_key field d1).

Global Instance desc_by_dec field : RelDecision (desc_by field).
Proof. intros d1 d2. unfold desc_by. apply _. Defined.

(** [cursor.sort(field, -1)] *)
Definition sort_desc (field : string) (c : collection) : collection :=
  merge_sort (desc_by field) c.

(** ** The database handle *)

Record Database : Type := mkDatabase {
  db_name : string;
  db_collections : gmap string collection
}.

(** [db[name]]: a collection that was never written to is empty. *)
Definition coll (d : Database) (name : string) : collection :=
  default [] (db_collections d !! name).

Definition set_coll (d : Database) (name : string) (c : collection)
  : Database :=
  mkDatabase (db_name d) (<[name := c]> (db_collections d)).

(** ** Outcomes *)

Inductive exn : Type :=
| HTTPException (status_code : Z) (detail : string)
| ValidationError (model : string)
| AttributeError (msg : string)
| DatastoreError (msg : string)
| UnicodeEncodeError (msg : string).

Inductive outcome (A : Type) : Type :=
| Return (a : A)
| Raise (e : exn).
Arguments Return {A} a.
Arguments Raise {A} e.

(** Handlers run against the global handle: a computation takes the handle
    and yields its outcome and the handle afterwards. *)
Definition M (A : Type) : Type :=
  option Database -> outcome A * option Database.

Definition ret {A} (a : A) : M A := fun db => (Return a, db).
Definition raise {A} (e : exn) : M A := fun db => (Raise e, db).
Definition bind {A B} (m : M A) (k : A -> M B) : M B :=
  fun db =>
    match m db with
    | (Return a, db') => k a db'
    | (Raise e, db') => (Raise e, db')
    end.
Definition lift {A} (o : outcome A) : M A := fun db => (o, db).

Notation "x <- m ;; k" := (bind m (fun x => k))
  (at level 100, m at next level, right associativity).

(** [pw.encode("utf-8")]: the bytes of the string; a string that holds a
    lone surrogate has none and the call raises. *)
Definition encode_utf8 (s : string) : outcome (list Z) :=
  if has_surrogate s then
    Raise (UnicodeEncodeError "surrogates not allowed")
  else Return (utf8_bytes s).

(** [_hash_password] *)
Definition _hash_password (pw : string) : outcome string :=
  match encode_utf8 pw with
  | Return bytes => Return (SHA256.hexdigest bytes)
  | Raise e => Raise e
  end.

(** The guard that opens every handler:
    [if db is None: raise HTTPException(500, "Database not available")]. *)
Definition require_db : M Database :=
  fun db =>
    match db with
    | None => (Raise (HTTPException 500 "Database not available"), db)
    | Some d => (Return d, db)
    end.

(** What the environment supplies to an insert: the clock and the fresh
    identifier the driver generates. *)
Record env : Type := mkEnv { now : Z; fresh_id : Z }.

(** Modelled from the spec: [create_document] of the persistence gateway
    ([database.py]), which is not among the sources.  It inserts the
    document into the named collection, the datastore assigning
    [created_at] at insert time and generating the identifier, and returns
    the identifier as text; with no connection it fails with a datastore
    error. *)
Definition create_document (e : env) (collection_name : string)
    (data : document) : M string :=
  fun db =>
    match db with
    | None => (Raise (DatastoreError "Database not available"), db)
    | Some d =>
        let stored :=
          <["_id" := VOid (fresh_id e)]>
            (<["created_at" := VDate (now e)]> data) in
        (Return (py_str (VOid (fresh_id e))),
         Some (set_coll d collection_name
                 (coll d collection_name ++ [stored])))
    end.

(** [collection.update_many] on the named collection; a collection that
    does not exist has nothing to update and is not created. *)
Definition update_coll (name : string) (f : collection -> collection)
  : M unit :=
  fun db =>
    match db with
    | None => (Raise (DatastoreError "Database not available"), db)
    | Some d =>
        match db_collections d !! name with
        | Some c => (Return tt, Some (set_coll d name (f c)))
        | None => (Return tt, db)
        end
    end.

(** ** Request and response models

    A request model is built from the submitted body by validation.  An
    [EmailStr] field does not keep the submitted address: the validator
    returns it with its domain, the part after the last [@], in lower
    case, and the handler sees only that.  The validator is a library of
    its own; what is modelled of it is the split at the last [@], the
    refusal of an address without [@] or with an empty part (it refuses
    more) and the lower-cased domain of what it returns.
    A response model is built from values taken out of a document and
    checks their types: a [str] field takes a string, an [Optional[str]]
    field a string or [None]. *)

(** Lower case of the ASCII letters of a string. *)
Definition lower_ascii (c : ascii) : ascii :=
  let n := N_of_ascii c in
  if ((65 <=? n) && (n <=? 90))%N then ascii_of_N (n + 32) else c.

Fixpoint lower (s : string) : string :=
  match s with
  | EmptyString => EmptyString
  | String c rest => String (lower_ascii c) (lower rest)
  end.

Module EmailStr.

(** The part before and the part after the last [@]. *)
Fixpoint split (s : string) : option (string * string) :=
  match s with
  | EmptyString => None
  | String c rest =>
      match split rest with
      | Some (l, dom) => Some (String c l, dom)
      | None => if Ascii.eqb c "@" then Some (EmptyString, rest) else None
      end
  end.

Definition validate (s : string) : outcome string :=
  match split s with
  | Some (l, dom) =>
      if bool_decide (l = EmptyString) || bool_decide (dom = EmptyString)
      then Raise (ValidationError "EmailStr")
      else Return (l +:+ "@" +:+ lower dom)
  | None => Raise (ValidationError "EmailStr")
  end.

End EmailStr.

Module RegisterRequest.
Record t : Type := mk { name : string; email : string; password : string }.

(** The model of a submitted body [{name, email, password}]. *)
Definition parse (name email password : string) : outcome t :=
  match EmailStr.validate email with
  | Return em => Return (mk name em password)
  | Raise e => Raise e
  end.
End RegisterRequest.

Module LoginRequest.
Record t : Type := mk { email : string; password : string }.

(** The model of a submitted body [{email, password}]. *)
Definition parse (email password : string) : outcome t :=
  match EmailStr.validate email with
  | Return em => Return (mk em password)
  | Raise e => Raise e
  end.
End LoginRequest.

Module AuthResponse.
Record t : Type :=
  mk { name : string; email : string; avatar_url : option string }.

Definition new (name email avatar_url : value) : outcome t :=
  match name, email, avatar_url with
  | VStr n, VStr e, VNone => Return (mk n e None)
  | VStr n, VStr e, VStr a => Return (mk n e (Some a))
  | _, _, _ => Raise (ValidationError "AuthResponse")
  end.
End AuthResponse.

Module CreateNotificationRequest.
Record t : Type := mk { email : string; title : string; body : string }.
End CreateNotificationRequest.

Module MarkAllReadRequest.
Record t : Type := mk { email : string }.
End MarkAllReadRequest.

Module NotificationItem.
Record t : Type := mk {
  id : string;
  title : string;
  body : string;
  read : bool;
  created_at : option string
}.

Definition new (id : string) (title body : value) (read : bool)
    (created_at : option string) : outcome t :=
  match title, body with
  | VStr ti, VStr bo => Return (mk id ti bo read created_at)
  | _, _ => Raise (ValidationError "NotificationItem")
  end.
End NotificationItem.

(** The body [{"id": nid, "status": "created"}]. *)
Module Created.
Record t : Type := mk { id : string; status : string }.
End Created.

(** The body [{"status": "ok"}]. *)
Module Status.
Record t : Type := mk { status : string }.
End Status.

(** ** Auth *)

Definition register (e : env) (data : RegisterRequest.t)
  : M AuthResponse.t :=
  d <- require_db ;;
  let existing :=
    find_one [("email", VStr (RegisterRequest.email data))]
             (coll d "authuser") in
  if truthy existing then
    raise (HTTPException 400 "Email already registered")
  else
    h <- lift (_hash_password (RegisterRequest.password data)) ;;
    let doc : document :=
      <["name" := VStr (RegisterRequest.name data)]>
      (<["email" := VStr (RegisterRequest.email data)]>
      (<["password_hash" := VStr h]>
      (<["avatar_url" := VNone]> ∅))) in
    _ <- create_document e "authuser" doc ;;
    lift (AuthResponse.new (VStr (RegisterRequest.name data))
                           (VStr (RegisterRequest.email data)) VNone).

Definition login (data : LoginRequest.t) : M AuthResponse.t :=
  d <- require_db ;;
  let user :=
    find_one [("email", VStr (LoginRequest.email data))]
             (coll d "authuser") in
  match user with
  | Some u =>
      if negb (truthy user) then
        raise (HTTPException 401 "Invalid credentials")
      else
        h <- lift (_hash_password (LoginRequest.password data)) ;;
        if bool_decide (dict_get u "password_hash" ≠ VStr h) then
          raise (HTTPException 401 "Invalid credentials")
        else lift (AuthResponse.new (dict_get u "name") (dict_get u "email")
                                    (dict_get u "avatar_url"))
  | None => raise (HTTPException 401 "Invalid credentials")
  end.

(** ** Notifications *)

Definition create_notification (e : env)
    (data : CreateNotificationRequest.t) : M Created.t :=
  d <- require_db ;;
  let user :=
    find_one [("email", VStr (CreateNotificationRequest.email data))]
             (coll d "authuser") in
  if negb (truthy user) then
    raise (HTTPException 404 "User not found")
  else
    let doc : document :=
      <["user_email" := VStr (CreateNotificationRequest.email data)]>
      (<["title" := VStr (CreateNotificationRequest.title data)]>
      (<["body" := VStr (CreateNotificationRequest.body data)]>
      (<["read" := VBool false]> ∅))) in
    nid <- create_document e "notification" doc ;;
    ret (Created.mk nid "created").

(** [d.get("created_at").isoformat() if d.get("created_at") else None]:
    only a date has [isoformat]. *)
Definition created_at_text (d : document) : outcome (option string) :=
  if py_bool (dict_get d "created_at") then
    match dict_get d "created_at" with
    | VDate t => Return (Some (Datetime.isoformat t))
    | _ => Raise (AttributeError "isoformat")
    end
  else Return None.

(** The item built from one document in the loop of
    [list_notifications]. *)
Definition item_of (d : document) : outcome NotificationItem.t :=
  match created_at_text d with
  | Return created =>
      NotificationItem.new
        (py_str (dict_get d "_id"))
        (dict_get_default d "title" (VStr EmptyString))
        (dict_get_default d "body" (VStr EmptyString))
        (py_bool (dict_get_default d "read" (VBool false)))
        created
  | Raise e => Raise e
  end.

(** [for d in raw: items.append(...)] *)
Fixpoint collect (raw : collection) (items : list NotificationItem.t)
  : outcome (list NotificationItem.t) :=
  match raw with
  | [] => Return items
  | d :: rest =>
      match item_of d with
      | Return it => collect rest (items ++ [it])
      | Raise e => Raise e
      end
  end.

Definition list_notifications (email : string)
  : M (list NotificationItem.t) :=
  d <- require_db ;;
  let raw :=
    sort_desc "created_at"
      (find [("user_email", VStr email)] (coll d "notification")) in
  lift (collect raw []).

Definition mark_all_read (data : MarkAllReadRequest.t) : M Status.t :=
  _ <- require_db ;;
  _ <- update_coll "notification"
         (update_many [("user_email", VStr (MarkAllReadRequest.email data));
                       ("read", VBool false)]
                      "read" (VBool true)) ;;
  ret (Status.mk "ok").

(** ** Health *)

(** The body [{"message": ...}]. *)
Module Message.
Record t : Type := mk { message : string }.
End Message.

Definition read_root : outcome Message.t :=
  Return (Message.mk "Hello from FastAPI Backend!").

Definition hello : outcome Message.t :=
  Return (Message.mk "Hello from the backend API!").

Module Diagnostics.
Record t : Type := mk {
  backend : string;
  database : string;
  database_url : option string;
  database_name : option string;
  connection_status : string;
  collections : list string
}.

Definition set_database (v : string) (r : t) : t :=
  mk (backend r) v (database_url r) (database_name r)
     (connection_status r) (collections r).
Definition set_database_url (v : option string) (r : t) : t :=
  mk (backend r) (database r) v (database_name r)
     (connection_status r) (collections r).
Definition set_database_name (v : option string) (r : t) : t :=
  mk (backend r) (database r) (database_url r) v
     (connection_status r) (collections r).
Definition set_connection_status (v : string) (r : t) : t :=
  mk (backend r) (database r) (database_url r) (database_name r)
     v (collections r).
Definition set_collections (v : list string) (r : t) : t :=
  mk (backend r) (database r) (database_url r) (database_name r)
     (connection_status r) v.
End Diagnostics.

(** Truth value of [os.getenv(key)]: set and not empty. *)
Definition env_set (getenv : string -> option string) (key : string)
  : bool :=
  match getenv key with
  | Some v => negb (bool_decide (v = EmptyString))
  | None => false
  end.

(** [test_database].  [enumeration] is what [db.list_collection_names()]
    does when it is called: it returns the names ([inl]) or raises an
    exception [e], given by [str(e)] ([inr]).  The call is the first
    statement of the inner [try], so its handler sees the response as it
    was before the block.  Nothing else in the outer [try] raises, so the
    outer handler has no path to it. *)
Definition test_database (db : option Database)
    (enumeration : list string + string)
    (getenv : string -> option string) : outcome Diagnostics.t :=
  let response :=
    Diagnostics.mk "✅ Running" "❌ Not Available" None None
                   "Not Connected" [] in
  let response :=
    match db with
    | Some d =>
        let response := Diagnostics.set_database "✅ Available" response in
        let response :=
          Diagnostics.set_database_url (Some "✅ Configured") response in
        let response :=
          Diagnostics.set_database_name (Some (db_name d)) response in
        let response :=
          Diagnostics.set_connection_status "Connected" response in
        match enumeration with
        | inl collections =>
            let response :=
              Diagnostics.set_collections (take 10 collections) response in
            Diagnostics.set_database "✅ Connected & Working" response
        | inr e =>
            Diagnostics.set_database
              ("⚠️  Connected but Error: " +:+ py_take 50 e) response
        end
    | None =>
        Diagnostics.set_database "⚠️  Available but not initialized" response
    end in
  let response :=
    Diagnostics.set_database_url
      (Some (if env_set getenv "DATABASE_URL" then "✅ Set"
             else "❌ Not Set")) response in
  let response :=
    Diagnostics.set_database_name
      (Some (if env_set getenv "DATABASE_NAME" then "✅ Set"
             else "❌ Not Set")) response in
  Return response.

(** ** Notions used in the statements *)

(** [count_documents(q)] *)
Definition count_documents (q : query) (c : collection) : nat :=
  length (find q c).

(** The status code of the HTTP error a handler ended with, if it did. *)
Definition http_status {A} (o : outcome A) : option Z :=
  match o with
  | Raise (HTTPException s _) => Some s
  | _ => None
  end.

(** The document [register] hands to [create_document]. *)
Definition user_doc (data : RegisterRequest.t) : document :=
  <["name" := VStr (RegisterRequest.name data)]>
  (<["email" := VStr (RegisterRequest.email data)]>
  (<["password_hash" :=
       VStr (sha256_hex (RegisterRequest.password data))]>
  (<["avatar_url" := VNone]> ∅))).

(** The document the store holds after the insert. *)
Definition stored (e : env) (data : document) : document :=
  <["_id" := VOid (fresh_id e)]> (<["created_at" := VDate (now e)]> data).


(** The number of User documents with a given email, [0] when there is no
    datastore. *)
Definition users_with (em : string) (db : option Database) : nat :=
  match db with
  | Some d => count_documents [("email", VStr em)] (coll d "authuser")
  | None => O
  end.




Definition is_text (v : option value) : bool :=
  match v with
  | Some (VStr _) => true
  | _ => false
  end.

(** A User document as the data model has it: [name], [email] and
    [password_hash] are text, [avatar_url] is text, null or absent. *)
Definition is_User (u : document) : bool :=
  is_text (u !! "name") && is_text (u !! "email")
  && is_text (u !! "password_hash")
  && match u !! "avatar_url" with
     | None | Some VNone | Some (VStr _) => true
     | _ => false
     end.

(** A Notification document as the data model has it: [user_email],
    [title] and [body] are text, [read] is a boolean and [created_at] a
    timestamp. *)
Definition is_Notification (n : document) : bool :=
  is_text (n !! "user_email") && is_text (n !! "title")
  && is_text (n !! "body")
  && match n !! "read" with Some (VBool _) => true | _ => false end
  && match n !! "created_at" with Some (VDate _) => true | _ => false end.

(** A stored notification that may miss fields but holds no field of a
    wrong type: [title] and [body], when present, are text and
    [created_at], when present, is a timestamp or null. *)
Definition well_typed (n : document) : bool :=
  match n !! "title" with None | Some (VStr _) => true | _ => false end
  && match n !! "body" with None | Some (VStr _) => true | _ => false end
  && match n !! "created_at" with
     | None | Some VNone | Some (VDate _) => true
     | _ => false
     end.

(** The item a stored notification is listed as, every missing field
    replaced by its default. *)
Definition item_with_defaults (n : document) : NotificationItem.t :=
  NotificationItem.mk
    (py_str (default VNone (n !! "_id")))
    (match n !! "title" with Some (VStr s) => s | _ => EmptyString end)
    (match n !! "body" with Some (VStr s) => s | _ => EmptyString end)
    (match n !! "read" with Some v => py_bool v | None => false end)
    (match n !! "created_at" with
     | Some (VDate t) => Some (Datetime.isoformat t)
     | _ => None
     end).

(** The document [create_notification] hands to [create_document]. *)
Definition notification_doc (data : CreateNotificationRequest.t)
  : document :=
  <["user_email" := VStr (CreateNotificationRequest.email data)]>
  (<["title" := VStr (CreateNotificationRequest.title data)]>
  (<["body" := VStr (CreateNotificationRequest.body data)]>
  (<["read" := VBool false]> ∅))).

(** The notifications of a store for an email, in the order of the
    listing. *)
Definition listed (email : string) (d : Database) : collection :=
  sort_desc "created_at"
    (find [("user_email", VStr email)] (coll d "notification")).

(** The filter of [mark_all_read]: the unread notifications of an
    email. *)
Definition unread_of (email : string) : query :=
  [("user_email", VStr email); ("read", VBool false)].

(** ** The service as a transition system

    The requests that reach the store and the store each leaves behind. *)
Inductive request : Type :=
| Register (e : env) (data : RegisterRequest.t)
| Login (data : LoginRequest.t)
| CreateNotification (e : env) (data : CreateNotificationRequest.t)
| ListNotifications (email : string)
| MarkAllRead (data : MarkAllReadRequest.t).

Definition handle (db : option Database) (r : request) : option Database :=
  match r with
  | Register e data => (register e data db).2
  | Login data => (login data db).2
  | CreateNotification e data => (create_notification e data db).2
  | ListNotifications email => (list_notifications email db).2
  | MarkAllRead data => (mark_all_read data db).2
  end.

(** The store after a sequence of requests. *)
Definition run (db : option Database) (rs : list request)
  : option Database :=
  fold_left handle rs db.

(** The documents of both collections are as the data model has them and
    no two Users share an email. *)
Definition store_ok (d : Database) : Prop :=
  (forall u, u ∈ coll d "authuser" -> is_User u = true)
  /\ (forall n, n ∈ coll d "notification" -> is_Notification n = true)
  /\ (forall em, (users_with em (Some d) <= 1)%nat).

(** ** Notions used in the further properties *)

(** A lower-case hexadecimal digit. *)
Definition is_hex_digit (c : ascii) : bool :=
  existsb (Ascii.eqb c) (list_ascii_of_string "0123456789abcdef").

(** The login request with the credentials of a register request. *)
Definition credentials (data : RegisterRequest.t) : LoginRequest.t :=
  LoginRequest.mk (RegisterRequest.email data)
                  (RegisterRequest.password data).

(** The HTTP errors a handler may end with, besides 500. *)
Definition own_status (r : request) : list Z :=
  match r with
  | Register _ _ => [400]
  | Login _ => [401]
  | CreateNotification _ _ => [404]
  | ListNotifications _ => []
  | MarkAllRead _ => []
  end.

(** The status of the HTTP error a request ends with, if it does. *)
Definition status_of (db : option Database) (r : request) : option Z :=
  match r with
  | Register e data => http_status (register e data db).1
  | Login data => http_status (login data db).1
  | CreateNotification e data =>
      http_status (create_notification e data db).1
  | ListNotifications email => http_status (list_notifications email db).1
  | MarkAllRead data => http_status (mark_all_read data db).1
  end.

(** An item with its [read] flag set. *)
Definition read_item (it : NotificationItem.t) : NotificationItem.t :=
  NotificationItem.mk (NotificationItem.id it) (NotificationItem.title it)
    (NotificationItem.body it) true (NotificationItem.created_at it).

(** The item a notification created by [create_notification] is listed
    as. *)
Definition new_item (e : env) (data : CreateNotificationRequest.t)
  : NotificationItem.t :=
  NotificationItem.mk
    (py_str (VOid (fresh_id e)))
    (CreateNotificationRequest.title data)
    (CreateNotificationRequest.body data)
    false
    (Some (Datetime.isoformat (now e))).

(** What [mark_all_read] does to one stored notification. *)
Definition mark (email : string) (n : document) : document :=
  if matches (unread_of email) n then <["read" := VBool true]> n else n.

(** Every notification refers to a User: its [user_email] is the email of
    a stored User. *)
Definition refs_ok (d : Database) : Prop :=
  forall n, n ∈ coll d "notification" ->
    exists em u, n !! "user_email" = Some (VStr em)
                 /\ u ∈ coll d "authuser"
                 /\ u !! "email" = Some (VStr em).

(** ** Sample data *)

Module Sample.
Definition empty_db : Database := mkDatabase "app" ∅.
Definition at1 : env := mkEnv 1700000000000 1.
Definition at2 : env := mkEnv 1700000000500 2.
Definition at3 : env := mkEnv 1700000001000 3.
Definition ann : RegisterRequest.t :=
  RegisterRequest.mk "Ann" "ann@x.com" "pw1".
Definition ann_upper : RegisterRequest.t :=
  RegisterRequest.mk "Ann" "Ann@x.com" "pw1".
(** The store after Ann registered. *)
Definition db_ann : Database :=
  set_coll empty_db "authuser" [stored at1 (user_doc ann)].
Definition ann_login : LoginRequest.t :=
  LoginRequest.mk "ann@x.com" "pw1".
Definition ann_wrong : LoginRequest.t :=
  LoginRequest.mk "ann@x.com" "pw2".
Definition first_note : CreateNotificationRequest.t :=
  CreateNotificationRequest.mk "ann@x.com" "Hello" "first".
Definition second_note : CreateNotificationRequest.t :=
  CreateNotificationRequest.mk "ann@x.com" "Again" "second".
(** The store after Ann received [first_note] and then [second_note]. *)
Definition db_two : Database :=
  set_coll db_ann "notification"
    [stored at2 (notification_doc first_note);
     stored at3 (notification_doc second_note)].
Definition to_bob : CreateNotificationRequest.t :=
  CreateNotificationRequest.mk "bob@x.com" "Hi" "there".
(** The text of an exception of the driver, and its first 50
    characters. *)
Definition refused : string :=
  "ServerSelectionTimeoutError: localhost:27017: " +:+
  "[Errno 111] Connection refused".
Definition refused_50 : string :=
  "ServerSelectionTimeoutError: localhost:27017: [Err".
(** A password that holds the lone surrogate U+D800. *)
Definition surrogate : string :=
  String (ascii_of_N 237) (String (ascii_of_N 160)
    (String (ascii_of_N 128) "x")).
(** A notification whose [created_at] is a text, not a timestamp. *)
Definition odd : document :=
  {[ "user_email" := VStr "ann@x.com"; "created_at" := VStr "yesterday" ]}.
Definition db_odd : Database :=
  set_coll db_two "notification"
    (coll db_two "notification" ++ [odd]).
(** A notification stored without any of its fields. *)
Definition bare : document := {[ "user_email" := VStr "ann@x.com" ]}.
Definition db_bare : Database :=
  set_coll db_ann "notification" [bare].
End Sample.

(** * Properties *)

(** ** Test vectors *)

Example sha256_empty :
  _hash_password EmptyString = Return
  "e3b0c44298fc1c149afbf4c8996fb92427ae41e4649b934ca495991b7852b855".
Proof. vm_compute. reflexivity. Qed.

Example sha256_abc :
  _hash_password "abc" = Return
  "ba7816bf8f01cfea414140de5dae2223b00361a396177a9cb410ff61f20015ad".
Proof. vm_compute. reflexivity. Qed.

Example sha256_two_blocks :
  _hash_password "abcdbcdecdefdefgefghfghighijhijkijkljklmklmnlmnomnopnopq"
  = Return
  "248d6a61d20638b8e5c026930c3e6039a33ce45964ff2167f6ecedd419db06c1".
Proof. vm_compute. reflexivity. Qed.

Example hash_password_surrogate :
  _hash_password Sample.surrogate
  = Raise (UnicodeEncodeError "surrogates not allowed").
Proof. reflexivity. Qed.

Example isoformat_epoch :
  Datetime.isoformat 0 = "1970-01-01T00:00:00".
Proof. reflexivity. Qed.

Example isoformat_2023 :
  Datetime.isoformat 1700000000123 = "2023-11-14T22:13:20.123000".
Proof. vm_compute. reflexivity. Qed.

Example isoformat_leap_day :
  Datetime.isoformat 1709164800000 = "2024-02-29T00:00:00".
Proof. vm_compute. reflexivity. Qed.

Example py_take_code_points :
  py_take 2 "✅ Set" = "✅ " /\ py_len "✅ Set" = 5%nat.
Proof. vm_compute. split; reflexivity. Qed.

(** ** The digest has 64 hexadecimal digits *)

Lemma round_length (st : list Z) (kw : Z * Z) :
  length (SHA256.round st kw) = length st.
Proof.
  unfold SHA256.round.
  do 8 (destruct st as [|? st]; [reflexivity|]).
  destruct st; reflexivity.
Qed.

Lemma compress_length (h block : list Z) :
  length (SHA256.compress h block) = length h.
Proof.
  unfold SHA256.compress. rewrite length_map, length_combine.
  assert (Hfold : forall kws st,
            length (fold_left SHA256.round kws st) = length st).
  { induction kws as [|kw kws IH]; intros st; simpl; [done|].
    by rewrite IH, round_length. }
  rewrite Hfold. lia.
Qed.

Lemma hex_length (bs : list Z) :
  String.length (SHA256.hex bs) = (2 * length bs)%nat.
Proof. induction bs as [|b bs IH]; simpl; [done|]. rewrite IH. lia. Qed.

Lemma sha256_hex_length (pw : string) :
  String.length (sha256_hex pw) = 64%nat.
Proof.
  unfold sha256_hex, SHA256.hexdigest, SHA256.digest.
  rewrite hex_length.
  set (bs := SHA256.blocks _ _).
  assert (Hlen : length (fold_left SHA256.compress bs SHA256.H0) = 8%nat).
  { generalize SHA256.H0 (eq_refl : length SHA256.H0 = 8%nat).
    induction bs as [|b bs IH]; intros h Hh; simpl; [done|].
    apply IH. by rewrite compress_length. }
  destruct (fold_left SHA256.compress bs SHA256.H0)
    as [|a0 [|a1 [|a2 [|a3 [|a4 [|a5 [|a6 [|a7 [|]]]]]]]]];
    simplify_eq/=. reflexivity.
Qed.

Lemma hash_password_eq (pw : string) :
  _hash_password pw
  = if has_surrogate pw
    then Raise (UnicodeEncodeError "surrogates not allowed")
    else Return (sha256_hex pw).
Proof.
  unfold _hash_password, encode_utf8. by destruct (has_surrogate pw).
Qed.

(** ** The sample stores are stores of the service *)

Example sample_run :
  run (Some Sample.empty_db)
      [Register Sample.at1 Sample.ann;
       Register Sample.at2 Sample.ann;
       CreateNotification Sample.at2 Sample.first_note;
       CreateNotification Sample.at2 Sample.to_bob;
       CreateNotification Sample.at3 Sample.second_note]
  = Some Sample.db_two.
Proof. vm_compute. reflexivity. Qed.

(** ** Queries *)

Lemma matches_field (k : string) (v : value) (d : document) :
  matches [(k, v)] d = true <-> d !! k = Some v.
Proof.
  unfold matches; simpl. rewrite andb_true_r.
  apply bool_decide_eq_true.
Qed.

Lemma elem_of_find (q : query) (c : collection) (d : document) :
  d ∈ find q c <-> d ∈ c /\ matches q d = true.
Proof. unfold find. rewrite !list_elem_of_In. apply filter_In. Qed.

Lemma find_one_Some (q : query) (c : collection) (d : document) :
  find_one q c = Some d -> d ∈ c /\ matches q d = true.
Proof.
  unfold find_one. intros H. apply elem_of_find.
  destruct (find q c) as [|x l] eqn:E; simplify_eq/=. left.
Qed.

Lemma find_one_None (q : query) (c : collection) :
  find_one q c = None <-> forall d, d ∈ c -> matches q d = false.
Proof.
  unfold find_one. split.
  - intros H d Hd. destruct (matches q d) eqn:E; [|done].
    assert (Hin : d ∈ find q c) by (apply elem_of_find; done).
    destruct (find q c); [by apply elem_of_nil in Hin | done].
  - intros H. destruct (find q c) as [|x l] eqn:E; [done|].
    assert (Hin : x ∈ find q c) by (rewrite E; left).
    apply elem_of_find in Hin as [Hx Hm]. rewrite (H x Hx) in Hm. done.
Qed.

Lemma find_one_is_Some (q : query) (c : collection) (d : document) :
  d ∈ c -> matches q d = true -> is_Some (find_one q c).
Proof.
  intros Hd Hm. destruct (find_one q c) eqn:E; [eauto|].
  rewrite find_one_None in E. rewrite (E d Hd) in Hm. done.
Qed.

Lemma find_app (q : query) (c1 c2 : collection) :
  find q (c1 ++ c2) = find q c1 ++ find q c2.
Proof. unfold find. apply List.filter_app. Qed.

(** A document found through one of its fields is not the empty dict. *)
Lemma truthy_found (k : string) (v : value) (c : collection)
    (d : document) :
  find_one [(k, v)] c = Some d -> truthy (Some d) = true.
Proof.
  intros H. apply find_one_Some in H as [_ H].
  apply matches_field in H. simpl.
  apply negb_true_iff, bool_decide_eq_false.
  intros ->. by rewrite lookup_empty in H.
Qed.

Lemma find_one_email_None (em : string) (c : collection) :
  find_one [("email", VStr em)] c = None <->
  forall u, u ∈ c -> u !! "email" ≠ Some (VStr em).
Proof.
  rewrite find_one_None. split; intros H u Hu.
  - intros Hm. apply matches_field in Hm. rewrite (H u Hu) in Hm. done.
  - destruct (matches _ u) eqn:E; [|done].
    apply matches_field in E. by apply H in E.
Qed.

(** ** The store *)

Lemma coll_set_coll_eq (d : Database) (name : string) (c : collection) :
  coll (set_coll d name c) name = c.
Proof. unfold coll, set_coll; simpl. by rewrite lookup_insert_eq. Qed.

Lemma coll_set_coll_ne (d : Database) (n1 n2 : string) (c : collection) :
  n1 ≠ n2 -> coll (set_coll d n1 c) n2 = coll d n2.
Proof.
  intros Hne. unfold coll, set_coll; simpl. by rewrite lookup_insert_ne.
Qed.

Lemma set_coll_same (d : Database) (name : string) (c : collection) :
  db_collections d !! name = Some c -> set_coll d name c = d.
Proof.
  intros H. destruct d as [n m]; unfold set_coll; simpl in *.
  f_equal. by apply insert_id.
Qed.

(** ** Registration *)

Lemma register_taken (e : env) (d : Database) (data : RegisterRequest.t) :
  is_Some (find_one [("email", VStr (RegisterRequest.email data))]
                    (coll d "authuser")) ->
  register e data (Some d)
  = (Raise (HTTPException 400 "Email already registered"), Some d).
Proof.
  intros [u Hu]. unfold register, bind, require_db.
  rewrite Hu, (truthy_found _ _ _ _ Hu). reflexivity.
Qed.

Lemma register_free (e : env) (d : Database) (data : RegisterRequest.t) :
  find_one [("email", VStr (RegisterRequest.email data))]
           (coll d "authuser") = None ->
  has_surrogate (RegisterRequest.password data) = false ->
  register e data (Some d)
  = (Return (AuthResponse.mk (RegisterRequest.name data)
                             (RegisterRequest.email data) None),
     Some (set_coll d "authuser"
             (coll d "authuser" ++ [stored e (user_doc data)]))).
Proof.
  intros Hu Hs. unfold register, bind, require_db, lift. rewrite Hu.
  cbn [truthy]. rewrite hash_password_eq, Hs. reflexivity.
Qed.

Lemma register_unencodable
    (e : env) (d : Database) (data : RegisterRequest.t) :
  find_one [("email", VStr (RegisterRequest.email data))]
           (coll d "authuser") = None ->
  has_surrogate (RegisterRequest.password data) = true ->
  register e data (Some d)
  = (Raise (UnicodeEncodeError "surrogates not allowed"), Some d).
Proof.
  intros Hu Hs. unfold register, bind, require_db, lift. rewrite Hu.
  cbn [truthy]. rewrite hash_password_eq, Hs. reflexivity.
Qed.

(** The three ways a registration ends when there is a datastore. *)
Lemma register_cases (e : env) (d : Database) (data : RegisterRequest.t) :
  (is_Some (find_one [("email", VStr (RegisterRequest.email data))]
                     (coll d "authuser"))
   /\ register e data (Some d)
      = (Raise (HTTPException 400 "Email already registered"), Some d))
  \/ (find_one [("email", VStr (RegisterRequest.email data))]
               (coll d "authuser") = None
      /\ register e data (Some d)
         = (Raise (UnicodeEncodeError "surrogates not allowed"), Some d))
  \/ (find_one [("email", VStr (RegisterRequest.email data))]
               (coll d "authuser") = None
      /\ has_surrogate (RegisterRequest.password data) = false
      /\ register e data (Some d)
         = (Return (AuthResponse.mk (RegisterRequest.name data)
                                    (RegisterRequest.email data) None),
            Some (set_coll d "authuser"
                    (coll d "authuser" ++ [stored e (user_doc data)])))).
Proof.
  destruct (find_one [("email", VStr (RegisterRequest.email data))]
                     (coll d "authuser")) eqn:E.
  - left. split; [eauto|]. apply register_taken. rewrite E. eauto.
  - destruct (has_surrogate (RegisterRequest.password data)) eqn:Hs.
    + right. left. split; [done|]. by apply register_unencodable.
    + right. right. split; [done|]. split; [done|].
      by apply register_free.
Qed.

Lemma stored_lookup_ne (e : env) (data : document) (k : string) :
  k ≠ "_id" -> k ≠ "created_at" -> stored e data !! k = data !! k.
Proof.
  intros H1 H2. unfold stored.
  rewrite lookup_insert_ne by done. by rewrite lookup_insert_ne.
Qed.

Lemma stored_user_email (e : env) (data : RegisterRequest.t) :
  stored e (user_doc data) !! "email"
  = Some (VStr (RegisterRequest.email data)).
Proof. rewrite stored_lookup_ne by done. reflexivity. Qed.

(** C1: a register request whose email already belongs to a stored User
    fails with HTTP 400 and the detail "Email already registered", leaves
    the store as it was (nothing is inserted), and a count of 1 for that
    email stays 1. *)
Theorem register_duplicate_email
    (e : env) (d : Database) (data : RegisterRequest.t) :
  (exists u, u ∈ coll d "authuser"
             /\ u !! "email" = Some (VStr (RegisterRequest.email data))) ->
  register e data (Some d)
  = (Raise (HTTPException 400 "Email already registered"), Some d)
  /\ (users_with (RegisterRequest.email data) (Some d) = 1%nat ->
      users_with (RegisterRequest.email data) (register e data (Some d)).2
      = 1%nat).
Proof.
  intros (u & Hu & Hem).
  assert (Hreg : register e data (Some d)
    = (Raise (HTTPException 400 "Email already registered"), Some d)).
  { apply register_taken. eapply find_one_is_Some; [exact Hu|].
    by apply matches_field. }
  split; [exact Hreg|]. by rewrite Hreg.
Qed.

Lemma register_duplicate_email_witness :
  register Sample.at2 Sample.ann (Some Sample.db_ann)
  = (Raise (HTTPException 400 "Email already registered"),
     Some Sample.db_ann)
  /\ users_with "ann@x.com"
       (register Sample.at2 Sample.ann (Some Sample.db_ann)).2 = 1%nat.
Proof.
  destruct (register_duplicate_email Sample.at2 Sample.db_ann Sample.ann)
    as [Hreg Hcount].
  - exists (stored Sample.at1 (user_doc Sample.ann)).
    split; [left | reflexivity].
  - split; [exact Hreg | apply Hcount; reflexivity].
Defined.

(** Registering the same email twice from a store that does not know it:
    the first call succeeds, the second fails with 400, and the store
    holds one User with that email after each. *)
Lemma register_same_email_twice
    (e1 e2 : env) (d : Database) (data1 data2 : RegisterRequest.t) :
  RegisterRequest.email data2 = RegisterRequest.email data1 ->
  users_with (RegisterRequest.email data1) (Some d) = 0%nat ->
  has_surrogate (RegisterRequest.password data1) = false ->
  let db1 := (register e1 data1 (Some d)).2 in
  (register e1 data1 (Some d)).1
  = Return (AuthResponse.mk (RegisterRequest.name data1)
                            (RegisterRequest.email data1) None)
  /\ users_with (RegisterRequest.email data1) db1 = 1%nat
  /\ (register e2 data2 db1).1
     = Raise (HTTPException 400 "Email already registered")
  /\ users_with (RegisterRequest.email data1) (register e2 data2 db1).2
     = 1%nat.
Proof.
  intros Heq H0 Hs db1.
  assert (Hnone : find_one [("email", VStr (RegisterRequest.email data1))]
                           (coll d "authuser") = None).
  { unfold users_with, count_documents in H0. unfold find_one.
    by destruct (find _ _). }
  assert (Hdb1 : db1 = Some (set_coll d "authuser"
            (coll d "authuser" ++ [stored e1 (user_doc data1)]))).
  { unfold db1. by rewrite (register_free _ _ _ Hnone Hs). }
  assert (Hcount : users_with (RegisterRequest.email data1) db1 = 1%nat).
  { rewrite Hdb1. unfold users_with, count_documents.
    rewrite coll_set_coll_eq, find_app, length_app.
    unfold users_with, count_documents in H0. rewrite H0.
    assert (Hm : matches [("email", VStr (RegisterRequest.email data1))]
                   (stored e1 (user_doc data1)) = true)
      by (apply matches_field, stored_user_email).
    unfold find; cbn [List.filter]. by rewrite Hm. }
  split; [by rewrite (register_free _ _ _ Hnone Hs)|].
  split; [exact Hcount|].
  assert (Hreg2 : register e2 data2 db1
    = (Raise (HTTPException 400 "Email already registered"), db1)).
  { rewrite Hdb1. apply register_taken. rewrite Heq.
    eapply (find_one_is_Some _ _ (stored e1 (user_doc data1))).
    - rewrite coll_set_coll_eq. apply elem_of_app. right. left.
    - apply matches_field, stored_user_email. }
  rewrite Hreg2. by split.
Qed.





(** Registering one email leaves the lookup of any other email as it
    was. *)
Lemma register_other_email
    (e : env) (d d1 : Database) (data : RegisterRequest.t) (em : string) :
  RegisterRequest.email data ≠ em ->
  (register e data (Some d)).2 = Some d1 ->
  find_one [("email", VStr em)] (coll d1 "authuser")
  = find_one [("email", VStr em)] (coll d "authuser").
Proof.
  intros Hne Hd1.
  destruct (register_cases e d data)
    as [[_ Hr]|[[_ Hr]|(_ & _ & Hr)]]; rewrite Hr in Hd1;
    simplify_eq/=; [done|done|].
  rewrite coll_set_coll_eq. unfold find_one. rewrite find_app.
  assert (Hm : matches [("email", VStr em)] (stored e (user_doc data))
               = false).
  { apply not_true_is_false. rewrite matches_field, stored_user_email.
    congruence. }
  unfold find at 2; cbn [List.filter]. rewrite Hm.
  by rewrite app_nil_r.
Qed.

Lemma register_keeps_handle
    (e : env) (d : Database) (data : RegisterRequest.t) :
  is_Some (register e data (Some d)).2.
Proof.
  destruct (register_cases e d data)
    as [[_ Hr]|[[_ Hr]|(_ & _ & Hr)]]; rewrite Hr; eauto.
Qed.

Lemma register_status_400
    (e : env) (d : Database) (data : RegisterRequest.t) :
  http_status (register e data (Some d)).1 = Some 400
  <-> is_Some (find_one [("email", VStr (RegisterRequest.email data))]
                        (coll d "authuser")).
Proof.
  destruct (register_cases e d data)
    as [[Hf Hr]|[[Hf Hr]|(Hf & _ & Hr)]]; rewrite Hr; simpl.
  - done.
  - rewrite Hf. split; [done | by intros [? ?]].
  - rewrite Hf. split; [done | by intros [? ?]].
Qed.





(** ** Creating notifications *)

Lemma create_notification_unknown
    (e : env) (d : Database) (data : CreateNotificationRequest.t) :
  find_one [("email", VStr (CreateNotificationRequest.email data))]
           (coll d "authuser") = None ->
  create_notification e data (Some d)
  = (Raise (HTTPException 404 "User not found"), Some d).
Proof.
  intros Hu. unfold create_notification, bind, require_db.
  rewrite Hu. reflexivity.
Qed.

(** C6: a notification for an email that no stored User has is refused
    with HTTP 404 and the store, so the notification collection, is left
    as it was. *)
Theorem create_notification_unknown_user
    (e : env) (d : Database) (data : CreateNotificationRequest.t) :
  (forall u, u ∈ coll d "authuser" ->
     u !! "email" ≠ Some (VStr (CreateNotificationRequest.email data))) ->
  create_notification e data (Some d)
  = (Raise (HTTPException 404 "User not found"), Some d)
  /\ http_status (create_notification e data (Some d)).1 = Some 404
  /\ forall d', (create_notification e data (Some d)).2 = Some d' ->
                coll d' "notification" = coll d "notification".
Proof.
  intros Hfree. apply find_one_email_None in Hfree.
  rewrite (create_notification_unknown _ _ _ Hfree).
  repeat split. intros d' Hd'. by simplify_eq/=.
Qed.

Lemma create_notification_unknown_user_witness :
  create_notification Sample.at2 Sample.to_bob (Some Sample.db_ann)
  = (Raise (HTTPException 404 "User not found"), Some Sample.db_ann)
  /\ http_status (create_notification Sample.at2 Sample.to_bob
                    (Some Sample.db_ann)).1 = Some 404
  /\ forall d', (create_notification Sample.at2 Sample.to_bob
                   (Some Sample.db_ann)).2 = Some d' ->
                coll d' "notification" = coll Sample.db_ann "notification".
Proof.
  apply (create_notification_unknown_user Sample.at2 Sample.db_ann
                                          Sample.to_bob).
  intros u Hu. apply list_elem_of_singleton in Hu. subst u. discriminate.
Defined.

(** ** Login *)

Lemma dict_get_str (u : document) (k s : string) :
  dict_get u k = VStr s <-> u !! k = Some (VStr s).
Proof.
  unfold dict_get. destruct (u !! k) as [v|]; simpl; [|done].
  split; congruence.
Qed.

Lemma login_found (d : Database) (data : LoginRequest.t) (u : document) :
  find_one [("email", VStr (LoginRequest.email data))] (coll d "authuser")
  = Some u ->
  login data (Some d)
  = (match _hash_password (LoginRequest.password data) with
     | Return h =>
         if bool_decide (u !! "password_hash" = Some (VStr h))
         then AuthResponse.new (dict_get u "name") (dict_get u "email")
                               (dict_get u "avatar_url")
         else Raise (HTTPException 401 "Invalid credentials")
     | Raise e => Raise e
     end,
     Some d).
Proof.
  intros Hu. unfold login, bind, require_db, lift. rewrite Hu.
  rewrite (truthy_found _ _ _ _ Hu). cbn [negb].
  destruct (_hash_password _) as [h|e]; [|done].
  repeat case_bool_decide; try reflexivity.
  - exfalso. by rewrite dict_get_str in *.
  - exfalso. rewrite <- dict_get_str in *. simplify_eq.
Qed.

Lemma login_not_found (d : Database) (data : LoginRequest.t) :
  find_one [("email", VStr (LoginRequest.email data))] (coll d "authuser")
  = None ->
  login data (Some d)
  = (Raise (HTTPException 401 "Invalid credentials"), Some d).
Proof. intros Hu. unfold login, bind, require_db. by rewrite Hu. Qed.

Lemma AuthResponse_new_status (n e a : value) :
  http_status (AuthResponse.new n e a) = None.
Proof. by destruct n, e, a. Qed.





(** ** Marking notifications as read *)

Lemma matches_unread (em : string) (n : document) :
  matches (unread_of em) n = true
  <-> n !! "user_email" = Some (VStr em) /\ n !! "read" = Some (VBool false).
Proof.
  unfold matches, unread_of; simpl. rewrite andb_true_r, andb_true_iff.
  by rewrite !bool_decide_eq_true.
Qed.

Lemma marked_not_unread (em : string) (n : document) :
  matches (unread_of em) (<["read" := VBool true]> n) = false.
Proof.
  apply not_true_is_false. rewrite matches_unread.
  rewrite lookup_insert_eq. intros [_ ?]. done.
Qed.

Lemma update_many_unread_twice (em : string) (c : collection) :
  update_many (unread_of em) "read" (VBool true)
    (update_many (unread_of em) "read" (VBool true) c)
  = update_many (unread_of em) "read" (VBool true) c.
Proof.
  unfold update_many. rewrite map_map. apply map_ext. intros n.
  destruct (matches (unread_of em) n) eqn:E.
  - by rewrite marked_not_unread.
  - by rewrite E.
Qed.

Lemma update_many_none (q : query) (k : string) (v : value)
    (c : collection) :
  find q c = [] -> update_many q k v c = c.
Proof.
  intros H. unfold update_many. induction c as [|n c IH]; [done|].
  unfold find in H; simpl in *.
  destruct (matches q n); [done|]. f_equal. by apply IH.
Qed.

Lemma mark_all_read_eq (d : Database) (data : MarkAllReadRequest.t) :
  mark_all_read data (Some d)
  = (Return (Status.mk "ok"),
     Some match db_collections d !! "notification" with
          | Some c =>
              set_coll d "notification"
                (update_many (unread_of (MarkAllReadRequest.email data))
                             "read" (VBool true) c)
          | None => d
          end).
Proof.
  unfold mark_all_read, bind, require_db, update_coll, unread_of.
  by destruct (db_collections d !! "notification").
Qed.

(** After the update every notification of the email that has a boolean
    [read] field has it true. *)
Lemma update_many_unread_read (em : string) (c : collection)
    (n : document) :
  (forall m, m ∈ c -> is_Notification m = true) ->
  n ∈ update_many (unread_of em) "read" (VBool true) c ->
  n !! "user_email" = Some (VStr em) ->
  n !! "read" = Some (VBool true).
Proof.
  intros Hwf Hn Hem. unfold update_many in Hn.
  apply list_elem_of_In, in_map_iff in Hn as (m & Hm & Hin).
  apply list_elem_of_In in Hin.
  destruct (matches (unread_of em) m) eqn:E; subst n.
  - apply lookup_insert_eq.
  - specialize (Hwf m Hin). unfold is_Notification in Hwf.
    destruct (m !! "read") as [[ |[]| | | | ]|] eqn:Hr;
      rewrite ?andb_false_r in Hwf; try done.
    exfalso. apply not_true_iff_false in E. apply E.
    by apply matches_unread.
Qed.

(** C7: [mark_all_read] always answers [{status: "ok"}]; after one call
    every Notification of the email has [read = true]; a second call
    leaves the store exactly as the first one left it; and when no
    document matched, the answer is the same and the store is unchanged. *)
Theorem mark_all_read_idempotent
    (d : Database) (data : MarkAllReadRequest.t) :
  exists d1 : Database,
    mark_all_read data (Some d) = (Return (Status.mk "ok"), Some d1)
    /\ mark_all_read data (Some d1) = (Return (Status.mk "ok"), Some d1)
    /\ ((forall m, m ∈ coll d "notification" -> is_Notification m = true) ->
        forall n, n ∈ coll d1 "notification" ->
          n !! "user_email" = Some (VStr (MarkAllReadRequest.email data)) ->
          n !! "read" = Some (VBool true))
    /\ (find (unread_of (MarkAllReadRequest.email data))
             (coll d "notification") = [] -> d1 = d).
Proof.
  rewrite mark_all_read_eq.
  destruct (db_collections d !! "notification") as [c|] eqn:E.
  - assert (Hc : coll d "notification" = c) by (unfold coll; by rewrite E).
    eexists. split; [reflexivity|]. split; [|split].
    + rewrite mark_all_read_eq. unfold set_coll at 1; simpl.
      rewrite lookup_insert_eq. do 2 f_equal.
      rewrite update_many_unread_twice.
      apply set_coll_same. simpl. by rewrite lookup_insert_eq.
    + rewrite Hc, coll_set_coll_eq. intros Hwf n.
      by apply update_many_unread_read.
    + rewrite Hc. intros Hnone. rewrite update_many_none by done.
      by apply set_coll_same.
  - assert (Hc : coll d "notification" = []) by (unfold coll; by rewrite E).
    exists d. split; [reflexivity|]. split; [|split].
    + rewrite mark_all_read_eq. by rewrite E.
    + rewrite Hc. intros _ n Hn. by apply elem_of_nil in Hn.
    + done.
Qed.

Lemma mark_all_read_idempotent_witness :
  exists d1 : Database,
    mark_all_read (MarkAllReadRequest.mk "ann@x.com") (Some Sample.db_two)
    = (Return (Status.mk "ok"), Some d1)
    /\ mark_all_read (MarkAllReadRequest.mk "ann@x.com") (Some d1)
       = (Return (Status.mk "ok"), Some d1)
    /\ (forall n, n ∈ coll d1 "notification" ->
          n !! "user_email" = Some (VStr "ann@x.com") ->
          n !! "read" = Some (VBool true)).
Proof.
  destruct (mark_all_read_idempotent Sample.db_two
              (MarkAllReadRequest.mk "ann@x.com"))
    as (d1 & H1 & H2 & H3 & _).
  exists d1. split; [exact H1|]. split; [exact H2|].
  apply H3. intros m Hm.
  apply elem_of_cons in Hm as [-> | Hm]; [reflexivity|].
  apply list_elem_of_singleton in Hm. subst m. reflexivity.
Defined.

(** ** Listing notifications *)

(** C8: listing the notifications of an email that no stored
    notification carries returns the empty list, whatever the User
    collection holds. *)
Theorem list_notifications_unknown_email (d : Database) (email : string) :
  (forall n, n ∈ coll d "notification" ->
             n !! "user_email" ≠ Some (VStr email)) ->
  list_notifications email (Some d) = (Return [], Some d).
Proof.
  intros Hnone. unfold list_notifications, bind, require_db, lift.
  assert (Hfind : find [("user_email", VStr email)]
                       (coll d "notification") = []).
  { destruct (find _ _) as [|n l] eqn:E; [done|].
    assert (Hn : n ∈ find [("user_email", VStr email)]
                          (coll d "notification")) by (rewrite E; left).
    apply elem_of_find in Hn as [Hn Hm]. apply matches_field in Hm.
    by apply Hnone in Hn. }
  by rewrite Hfind.
Qed.

Lemma list_notifications_unknown_email_witness :
  list_notifications "bob@x.com" (Some Sample.db_two)
  = (Return [], Some Sample.db_two).
Proof.
  apply (list_notifications_unknown_email Sample.db_two "bob@x.com").
  intros n Hn.
  apply elem_of_cons in Hn as [-> | Hn]; [discriminate|].
  apply list_elem_of_singleton in Hn. subst n. discriminate.
Defined.

(** The items the loop collects when every document serialises. *)
Lemma collect_all (raw : collection) (items : list NotificationItem.t)
    (f : document -> NotificationItem.t) :
  (forall n, n ∈ raw -> item_of n = Return (f n)) ->
  collect raw items = Return (items ++ map f raw).
Proof.
  revert items. induction raw as [|n raw IH]; intros items Hok; simpl.
  - by rewrite app_nil_r.
  - rewrite (Hok n) by left.
    rewrite IH by (intros m Hm; apply Hok; by right).
    by rewrite <- app_assoc.
Qed.

Lemma item_of_well_typed (n : document) :
  well_typed n = true -> item_of n = Return (item_with_defaults n).
Proof.
  unfold well_typed, item_of, created_at_text, item_with_defaults,
    dict_get, dict_get_default.
  intros Hwt.
  destruct (n !! "title") as [[]|]; try done;
    destruct (n !! "body") as [[]|]; try done;
    destruct (n !! "created_at") as [[]|]; try done;
    destruct (n !! "read") as [?|]; reflexivity.
Qed.

Lemma elem_of_listed (email : string) (d : Database) (n : document) :
  n ∈ listed email d
  <-> n ∈ coll d "notification" /\ n !! "user_email" = Some (VStr email).
Proof.
  unfold listed, sort_desc. rewrite merge_sort_Permutation.
  by rewrite elem_of_find, matches_field.
Qed.

Lemma list_notifications_well_typed (d : Database) (email : string) :
  (forall n, n ∈ coll d "notification" ->
             n !! "user_email" = Some (VStr email) ->
             well_typed n = true) ->
  list_notifications email (Some d)
  = (Return (map item_with_defaults (listed email d)), Some d).
Proof.
  intros Hwt. unfold list_notifications, bind, require_db, lift.
  fold (listed email d).
  rewrite (collect_all _ _ item_with_defaults); [done|].
  intros n Hn. apply elem_of_listed in Hn as [Hn Hem].
  apply item_of_well_typed. by apply Hwt.
Qed.

(** C10: listing never rejects a stored notification for a missing
    field.  When the stored notifications of the email hold no field of a
    wrong type, the listing succeeds and gives, for each of them, the item
    whose [id] is the string form of [_id], whose [title] and [body] are
    the empty string when missing, whose [read] is false when missing and
    whose [created_at] is null when missing. *)
Theorem list_notifications_defaults (d : Database) (email : string) :
  (forall n, n ∈ coll d "notification" ->
             n !! "user_email" = Some (VStr email) ->
             well_typed n = true) ->
  (exists items,
     list_notifications email (Some d) = (Return items, Some d)
     /\ items = map item_with_defaults (listed email d)
     /\ length items
        = count_documents [("user_email", VStr email)]
                          (coll d "notification"))
  /\ forall n it, n ∈ listed email d -> item_of n = Return it ->
       NotificationItem.id it = py_str (dict_get n "_id")
       /\ (n !! "title" = None -> NotificationItem.title it = EmptyString)
       /\ (n !! "body" = None -> NotificationItem.body it = EmptyString)
       /\ (n !! "read" = None -> NotificationItem.read it = false)
       /\ (n !! "created_at" = None ->
           NotificationItem.created_at it = None).
Proof.
  intros Hwt. split.
  - eexists. split; [by apply list_notifications_well_typed|].
    split; [done|]. rewrite length_map. unfold listed, sort_desc.
    by rewrite merge_sort_Permutation.
  - intros n it Hn Hit. apply elem_of_listed in Hn as [Hn Hem].
    rewrite item_of_well_typed in Hit by by apply Hwt.
    simplify_eq. unfold item_with_defaults, dict_get; simpl.
    split; [done|]. repeat split; by intros ->.
Qed.

Lemma list_notifications_defaults_witness :
  list_notifications "ann@x.com" (Some Sample.db_bare)
  = (Return [NotificationItem.mk "None" EmptyString EmptyString false None],
     Some Sample.db_bare).
Proof.
  destruct (list_notifications_defaults Sample.db_bare "ann@x.com")
    as [(items & Hlist & Hitems & _) _].
  - intros n Hn _. apply list_elem_of_singleton in Hn. by subst n.
  - rewrite Hlist, Hitems. reflexivity.
Defined.

(** ** Diagnostics *)

Lemma py_len_take (n : nat) (s : string) : (py_len (py_take n s) <= n)%nat.
Proof.
  revert n. induction s as [|c s IH]; intros n; simpl; [lia|].
  destruct (is_continuation c) eqn:E; simpl; rewrite ?E.
  - apply IH.
  - destruct n; simpl; rewrite ?E; [lia|]. specialize (IH n). lia.
Qed.

Lemma py_take_prefix (n : nat) (s : string) :
  exists rest, s = py_take n s +:+ rest.
Proof.
  revert n. induction s as [|c s IH]; intros n; simpl.
  - by exists EmptyString.
  - destruct (is_continuation c).
    + destruct (IH n) as [rest Hr]. exists rest.
      change (String c s = String c (py_take n s +:+ rest)).
      by rewrite <- Hr.
    + destruct n.
      * by exists (String c s).
      * destruct (IH n) as [rest Hr]. exists rest.
        change (String c s = String c (py_take n s +:+ rest)).
        by rewrite <- Hr.
Qed.

(** C9: [test_database] always returns a diagnostic object.  When the
    enumeration of the collections raises, the exception is rendered in
    the [database] field, its text cut to its first 50 characters at
    most; the reported collections are at most 10, the first 10 of the
    names enumerated. *)
Theorem test_database_never_fails
    (db : option Database) (enumeration : list string + string)
    (getenv : string -> option string) :
  exists r : Diagnostics.t,
    test_database db enumeration getenv = Return r
    /\ (length (Diagnostics.collections r) <= 10)%nat
    /\ (forall d e, db = Some d -> enumeration = inr e ->
          Diagnostics.database r
          = "⚠️  Connected but Error: " +:+ py_take 50 e
          /\ (py_len (py_take 50 e) <= 50)%nat
          /\ (exists rest, e = py_take 50 e +:+ rest)
          /\ Diagnostics.collections r = [])
    /\ (forall d names, db = Some d -> enumeration = inl names ->
          Diagnostics.collections r = take 10 names
          /\ Diagnostics.database r = "✅ Connected & Working").
Proof.
  eexists. split; [reflexivity|]. split; [|split].
  - destruct db as [d|]; [destruct enumeration as [names|e]|]; simpl;
      try lia.
    rewrite length_take. lia.
  - intros d e -> ->. simpl.
    split; [done|]. split; [apply py_len_take|].
    split; [apply py_take_prefix | done].
  - intros d names -> ->. by simpl.
Qed.

Lemma test_database_never_fails_witness :
  exists r : Diagnostics.t,
    test_database (Some Sample.empty_db) (inr Sample.refused) (fun _ => None)
    = Return r
    /\ Diagnostics.database r
       = "⚠️  Connected but Error: " +:+ Sample.refused_50
    /\ py_len Sample.refused = 76%nat
    /\ py_len Sample.refused_50 = 50%nat.
Proof.
  destruct (test_database_never_fails (Some Sample.empty_db)
              (inr Sample.refused) (fun _ => None))
    as (r & Hr & _ & Herr & _).
  exists r. split; [exact Hr|].
  destruct (Herr Sample.empty_db _ eq_refl eq_refl) as [Hdb _].
  rewrite Hdb. repeat split; reflexivity.
Defined.

(** ** Order of the listing *)

Global Instance value_le_trans : Transitive value_le.
Proof.
  intros [|[]| | | |] [|[]| | | |] [|[]| | | |]; simpl;
    try done; try lia.
  apply (transitivity (R := String.le)).
Qed.

Global Instance value_le_total : Total value_le.
Proof.
  intros [|[]| | | |] [|[]| | | |]; simpl; try lia; try (by left);
    try (by right).
  apply (total String.le).
Qed.

Global Instance desc_by_trans field : Transitive (desc_by field).
Proof. intros x y z Hxy Hyz. unfold desc_by in *. by etrans. Qed.

Global Instance desc_by_total field : Total (desc_by field).
Proof. intros x y. unfold desc_by. apply (total value_le). Qed.

Lemma listed_sorted (email : string) (d : Database) :
  StronglySorted (desc_by "created_at") (listed email d).
Proof. unfold listed, sort_desc. apply StronglySorted_merge_sort; apply _. Qed.

Lemma listed_Permutation (email : string) (d : Database) :
  listed email d
  ≡ₚ find [("user_email", VStr email)] (coll d "notification").
Proof. unfold listed, sort_desc. apply merge_sort_Permutation. Qed.

(** In a sorted list an earlier element is related to every later one. *)
Lemma StronglySorted_lookup {A} (R : relation A) (l : list A)
    (i j : nat) (x y : A) :
  StronglySorted R l -> (i < j)%nat ->
  l !! i = Some x -> l !! j = Some y -> R x y.
Proof.
  intros Hs. revert i j.
  induction Hs as [|a l Hs IH Hall]; intros i j Hij Hi Hj.
  - done.
  - destruct j as [|j]; [lia|]. simpl in Hj. destruct i as [|i].
    + simpl in Hi. simplify_eq. rewrite Forall_forall in Hall.
      apply Hall. by eapply list_elem_of_lookup_2.
    + simpl in Hi. apply (IH i j); [lia|done|done].
Qed.

(** Of two listed notifications, the one with the later timestamp comes
    first. *)
Lemma listed_newest_first (email : string) (d : Database)
    (i j : nat) (n1 n2 : document) (t1 t2 : Z) :
  listed email d !! i = Some n1 -> listed email d !! j = Some n2 ->
  n1 !! "created_at" = Some (VDate t1) ->
  n2 !! "created_at" = Some (VDate t2) ->
  t1 < t2 -> (j < i)%nat.
Proof.
  intros Hi Hj H1 H2 Hlt.
  destruct (Nat.lt_trichotomy j i) as [?|[->|Hij]]; [done| |].
  - simplify_eq. lia.
  - pose proof (StronglySorted_lookup _ _ _ _ _ _
                  (listed_sorted email d) Hij Hi Hj) as Hle.
    unfold desc_by, sort_key in Hle. rewrite H1, H2 in Hle.
    simpl in Hle. lia.
Qed.

Lemma create_notification_known
    (e : env) (d : Database) (data : CreateNotificationRequest.t) :
  is_Some (find_one [("email", VStr (CreateNotificationRequest.email data))]
                    (coll d "authuser")) ->
  create_notification e data (Some d)
  = (Return (Created.mk (py_str (VOid (fresh_id e))) "created"),
     Some (set_coll d "notification"
             (coll d "notification" ++ [stored e (notification_doc data)]))).
Proof.
  intros [u Hu]. unfold create_notification, bind, require_db.
  rewrite Hu, (truthy_found _ _ _ _ Hu). reflexivity.
Qed.

Lemma stored_created_at (e : env) (data : document) :
  stored e data !! "created_at" = Some (VDate (now e)).
Proof.
  unfold stored. rewrite lookup_insert_ne by done. apply lookup_insert_eq.
Qed.

Lemma stored_notification (e : env) (data : CreateNotificationRequest.t) :
  is_Notification (stored e (notification_doc data)) = true.
Proof.
  unfold is_Notification. rewrite stored_created_at.
  by rewrite !stored_lookup_ne.
Qed.

Lemma is_Notification_well_typed (n : document) :
  is_Notification n = true -> well_typed n = true.
Proof.
  unfold is_Notification, well_typed, is_text. intros H.
  destruct (n !! "title") as [[]|]; rewrite ?andb_false_r in H; try done.
  destruct (n !! "body") as [[]|]; rewrite ?andb_false_r in H; try done.
  destruct (n !! "created_at") as [[]|]; rewrite ?andb_false_r in H; done.
Qed.

(** C2: a notification created through the endpoint is stored with
    [created_at] set to the time of the insert; the listing for an email
    returns the items of exactly the stored notifications of that email,
    in descending order of [created_at]: of two notifications stamped
    [t1 < t2], the one stamped [t2] comes first. *)
Theorem notifications_newest_first
    (e : env) (d : Database) (data : CreateNotificationRequest.t)
    (email : string) :
  (is_Some (find_one
              [("email", VStr (CreateNotificationRequest.email data))]
              (coll d "authuser")) ->
   exists n : document,
     create_notification e data (Some d)
     = (Return (Created.mk (py_str (VOid (fresh_id e))) "created"),
        Some (set_coll d "notification" (coll d "notification" ++ [n])))
     /\ n !! "created_at" = Some (VDate (now e))
     /\ n !! "user_email"
        = Some (VStr (CreateNotificationRequest.email data))
     /\ n !! "title" = Some (VStr (CreateNotificationRequest.title data))
     /\ n !! "body" = Some (VStr (CreateNotificationRequest.body data))
     /\ n !! "read" = Some (VBool false))
  /\ listed email d
     ≡ₚ find [("user_email", VStr email)] (coll d "notification")
  /\ (forall i j n1 n2 t1 t2,
        listed email d !! i = Some n1 -> listed email d !! j = Some n2 ->
        n1 !! "created_at" = Some (VDate t1) ->
        n2 !! "created_at" = Some (VDate t2) ->
        t1 < t2 -> (j < i)%nat)
  /\ ((forall n, n ∈ coll d "notification" -> is_Notification n = true) ->
      list_notifications email (Some d)
      = (Return (map item_with_defaults (listed email d)), Some d)).
Proof.
  split; [|split; [|split]].
  - intros Hu. exists (stored e (notification_doc data)).
    split; [by apply create_notification_known|].
    split; [apply stored_created_at|].
    repeat split; by rewrite stored_lookup_ne.
  - apply listed_Permutation.
  - apply listed_newest_first.
  - intros Hwf. apply list_notifications_well_typed.
    intros n Hn _. by apply is_Notification_well_typed, Hwf.
Qed.

(** Two notifications created one after the other for a known user: the
    listing shows the second before the first. *)
Lemma two_notifications_listed
    (e1 e2 : env) (d : Database) (data1 data2 : CreateNotificationRequest.t) :
  is_Some (find_one
             [("email", VStr (CreateNotificationRequest.email data1))]
             (coll d "authuser")) ->
  CreateNotificationRequest.email data2
  = CreateNotificationRequest.email data1 ->
  (forall n, n ∈ coll d "notification" -> is_Notification n = true) ->
  now e1 < now e2 ->
  exists d1 d2 items i j,
    (create_notification e1 data1 (Some d)).2 = Some d1
    /\ (create_notification e2 data2 (Some d1)).2 = Some d2
    /\ list_notifications (CreateNotificationRequest.email data1) (Some d2)
       = (Return items, Some d2)
    /\ (i < j)%nat
    /\ items !! i
       = Some (item_with_defaults (stored e2 (notification_doc data2)))
    /\ items !! j
       = Some (item_with_defaults (stored e1 (notification_doc data1))).
Proof.
  intros Hu Heq Hwf Hlt.
  set (em := CreateNotificationRequest.email data1) in *.
  set (n1 := stored e1 (notification_doc data1)).
  set (n2 := stored e2 (notification_doc data2)).
  set (d1 := set_coll d "notification" (coll d "notification" ++ [n1])).
  set (d2 := set_coll d1 "notification" (coll d1 "notification" ++ [n2])).
  assert (Hc1 : create_notification e1 data1 (Some d)
                = (Return (Created.mk (py_str (VOid (fresh_id e1))) "created"),
                   Some d1))
    by by apply create_notification_known.
  assert (Hc2 : create_notification e2 data2 (Some d1)
                = (Return (Created.mk (py_str (VOid (fresh_id e2))) "created"),
                   Some d2)).
  { apply create_notification_known. rewrite Heq. unfold d1.
    by rewrite coll_set_coll_ne. }
  assert (Hcoll : coll d2 "notification"
                  = coll d "notification" ++ [n1; n2]).
  { unfold d2. rewrite coll_set_coll_eq. unfold d1.
    rewrite coll_set_coll_eq. by rewrite <- app_assoc. }
  assert (Hin : forall n, n = n1 \/ n = n2 -> n ∈ listed em d2).
  { intros n Hn. apply elem_of_listed. rewrite Hcoll. split.
    - apply elem_of_app. right.
      destruct Hn as [-> | ->]; [left | right; left].
    - destruct Hn as [-> | ->]; unfold n1, n2;
        rewrite stored_lookup_ne by done; [done|].
      rewrite <- Heq. reflexivity. }
  destruct (list_elem_of_lookup_1 _ _ (Hin n1 (or_introl eq_refl)))
    as [j Hj].
  destruct (list_elem_of_lookup_1 _ _ (Hin n2 (or_intror eq_refl)))
    as [i Hi].
  exists d1, d2, (map item_with_defaults (listed em d2)), i, j.
  split; [by rewrite Hc1|]. split; [by rewrite Hc2|].
  split.
  { apply list_notifications_well_typed. intros n Hn _.
    apply is_Notification_well_typed.
    rewrite Hcoll in Hn. apply elem_of_app in Hn as [Hn | Hn].
    - by apply Hwf.
    - apply elem_of_cons in Hn as [-> | Hn];
        [apply stored_notification|].
      apply list_elem_of_singleton in Hn. subst n.
      apply stored_notification. }
  split.
  { eapply (listed_newest_first em d2 j i n1 n2); try done;
      apply stored_created_at. }
  split.
  - change (map item_with_defaults (listed em d2))
      with (item_with_defaults <$> listed em d2).
    by rewrite list_lookup_fmap, Hi.
  - change (map item_with_defaults (listed em d2))
      with (item_with_defaults <$> listed em d2).
    by rewrite list_lookup_fmap, Hj.
Qed.

Lemma notifications_newest_first_witness :
  (exists n : document,
     create_notification Sample.at2 Sample.first_note (Some Sample.db_ann)
     = (Return (Created.mk "000000000000000000000002" "created"),
        Some (set_coll Sample.db_ann "notification" [n]))
     /\ n !! "created_at" = Some (VDate 1700000000500))
  /\ list_notifications "ann@x.com" (Some Sample.db_two)
     = (Return
          [NotificationItem.mk "000000000000000000000003" "Again" "second"
             false (Some "2023-11-14T22:13:21");
           NotificationItem.mk "000000000000000000000002" "Hello" "first"
             false (Some "2023-11-14T22:13:20.500000")],
        Some Sample.db_two).
Proof.
  split.
  - destruct (notifications_newest_first Sample.at2 Sample.db_ann
                Sample.first_note "ann@x.com") as [Hcreate _].
    destruct Hcreate as (n & Hn & Hat & _).
    + exists (stored Sample.at1 (user_doc Sample.ann)). reflexivity.
    + exists n. split; [exact Hn | exact Hat].
  - destruct (notifications_newest_first Sample.at3 Sample.db_two
                Sample.second_note "ann@x.com") as (_ & _ & _ & Hlist).
    rewrite Hlist.
    + reflexivity.
    + intros n Hn.
      apply elem_of_cons in Hn as [-> | Hn]; [reflexivity|].
      apply list_elem_of_singleton in Hn. subst n. reflexivity.
Defined.

(** ** Invariants of the store

    Every store the service reaches from an empty database holds only
    documents of the data model, with unique User emails: the hypotheses
    on stored documents used above hold in all of them. *)

Lemma stored_user_is_User (e : env) (data : RegisterRequest.t) :
  is_User (stored e (user_doc data)) = true.
Proof. unfold is_User. by rewrite !stored_lookup_ne. Qed.

Lemma marked_is_Notification (n : document) :
  is_Notification n = true ->
  is_Notification (<["read" := VBool true]> n) = true.
Proof.
  unfold is_Notification. rewrite lookup_insert_eq.
  rewrite !lookup_insert_ne by done.
  by destruct (n !! "read") as [[]|]; rewrite ?andb_false_r.
Qed.

Lemma users_with_snoc (em : string) (d : Database) (u : document) :
  users_with em
    (Some (set_coll d "authuser" (coll d "authuser" ++ [u])))
  = (users_with em (Some d)
     + if bool_decide (u !! "email" = Some (VStr em)) then 1 else 0)%nat.
Proof.
  unfold users_with, count_documents.
  rewrite coll_set_coll_eq, find_app, length_app. f_equal.
  unfold find, matches; cbn [List.filter forallb fst snd].
  rewrite andb_true_r. by case_bool_decide.
Qed.

Lemma register_store_ok
    (e : env) (d : Database) (data : RegisterRequest.t) :
  store_ok d ->
  exists d', (register e data (Some d)).2 = Some d' /\ store_ok d'.
Proof.
  intros (Hu & Hn & Huniq).
  destruct (register_cases e d data)
    as [[_ Hr]|[[_ Hr]|(E & _ & Hr)]]; rewrite Hr.
  - by exists d.
  - by exists d.
  - eexists. split; [reflexivity|].
    split; [|split].
    + intros u. rewrite coll_set_coll_eq, elem_of_app.
      intros [Hin | Hin]; [by apply Hu|].
      apply list_elem_of_singleton in Hin. subst u.
      apply stored_user_is_User.
    + intros n. rewrite coll_set_coll_ne by done. apply Hn.
    + intros em. rewrite users_with_snoc, stored_user_email.
      case_bool_decide as Heq; [|specialize (Huniq em); lia].
      simplify_eq. unfold users_with, count_documents.
      unfold find_one in E. destruct (find _ _); [simpl; lia | done].
Qed.

Lemma create_notification_store_ok
    (e : env) (d : Database) (data : CreateNotificationRequest.t) :
  store_ok d ->
  exists d', (create_notification e data (Some d)).2 = Some d'
             /\ store_ok d'.
Proof.
  intros (Hu & Hn & Huniq).
  destruct (find_one
              [("email", VStr (CreateNotificationRequest.email data))]
              (coll d "authuser")) eqn:E.
  - rewrite create_notification_known by eauto.
    eexists. split; [reflexivity|]. split; [|split].
    + intros u. rewrite coll_set_coll_ne by done. apply Hu.
    + intros n. rewrite coll_set_coll_eq, elem_of_app.
      intros [Hin | Hin]; [by apply Hn|].
      apply list_elem_of_singleton in Hin. subst n.
      apply stored_notification.
    + intros em. unfold users_with. rewrite coll_set_coll_ne by done.
      apply (Huniq em).
  - rewrite (create_notification_unknown _ _ _ E). by exists d.
Qed.

Lemma mark_all_read_store_ok (d : Database) (data : MarkAllReadRequest.t) :
  store_ok d ->
  exists d', (mark_all_read data (Some d)).2 = Some d' /\ store_ok d'.
Proof.
  intros (Hu & Hn & Huniq). rewrite mark_all_read_eq.
  eexists. split; [reflexivity|].
  destruct (db_collections d !! "notification") as [c|] eqn:E; [|done].
  assert (Hc : coll d "notification" = c) by (unfold coll; by rewrite E).
  split; [|split].
  - intros u. rewrite coll_set_coll_ne by done. apply Hu.
  - intros n. rewrite coll_set_coll_eq. unfold update_many.
    rewrite list_elem_of_In, in_map_iff.
    intros (m & <- & Hm). apply list_elem_of_In in Hm.
    rewrite <- Hc in Hm. apply Hn in Hm.
    destruct (matches _ m); [by apply marked_is_Notification | done].
  - intros em. unfold users_with. rewrite coll_set_coll_ne by done.
    apply (Huniq em).
Qed.

Lemma login_keeps_store (d : Database) (data : LoginRequest.t) :
  (login data (Some d)).2 = Some d.
Proof.
  destruct (find_one [("email", VStr (LoginRequest.email data))]
                     (coll d "authuser")) eqn:E.
  - by rewrite (login_found _ _ _ E).
  - by rewrite (login_not_found _ _ E).
Qed.

Lemma list_notifications_keeps_store (d : Database) (email : string) :
  (list_notifications email (Some d)).2 = Some d.
Proof. reflexivity. Qed.

Lemma handle_store_ok (d : Database) (r : request) :
  store_ok d -> exists d', handle (Some d) r = Some d' /\ store_ok d'.
Proof.
  intros Hok. destruct r as [e data|data|e data|email|data]; simpl.
  - by apply register_store_ok.
  - rewrite login_keeps_store. by exists d.
  - by apply create_notification_store_ok.
  - by exists d.
  - by apply mark_all_read_store_ok.
Qed.

Lemma run_store_ok (d : Database) (rs : list request) :
  store_ok d -> exists d', run (Some d) rs = Some d' /\ store_ok d'.
Proof.
  revert d. induction rs as [|r rs IH]; intros d Hok; simpl.
  - by exists d.
  - destruct (handle_store_ok d r Hok) as (d' & Hd' & Hok').
    unfold run in *. simpl. rewrite Hd'. by apply IH.
Qed.

Lemma empty_store_ok (name : string) : store_ok (mkDatabase name ∅).
Proof.
  split; [|split].
  - intros u Hu. by apply elem_of_nil in Hu.
  - intros n Hn. by apply elem_of_nil in Hn.
  - intros em. unfold users_with, count_documents, coll; simpl.
    rewrite lookup_empty; simpl. lia.
Qed.

(** Every store reached from an empty database is well formed. *)
Corollary reachable_store_ok (name : string) (rs : list request) :
  exists d, run (Some (mkDatabase name ∅)) rs = Some d /\ store_ok d.
Proof. apply run_store_ok, empty_store_ok. Qed.

(** * Further properties of the handlers *)

(** ** Failure codes *)

Lemma create_notification_keeps_handle
    (e : env) (d : Database) (data : CreateNotificationRequest.t) :
  is_Some (create_notification e data (Some d)).2.
Proof.
  destruct (find_one
              [("email", VStr (CreateNotificationRequest.email data))]
              (coll d "authuser")) eqn:E.
  - rewrite create_notification_known by eauto. eauto.
  - rewrite (create_notification_unknown _ _ _ E). eauto.
Qed.

Lemma handle_keeps_handle (d : Database) (r : request) :
  is_Some (handle (Some d) r).
Proof.
  destruct r as [e data|data|e data|email|data]; simpl.
  - apply register_keeps_handle.
  - rewrite login_keeps_store. eauto.
  - apply create_notification_keeps_handle.
  - eauto.
  - rewrite mark_all_read_eq. eauto.
Qed.

Lemma collect_status (raw : collection) (items : list NotificationItem.t) :
  http_status (collect raw items) = None.
Proof.
  revert items. induction raw as [|n raw IH]; intros items; simpl; [done|].
  unfold item_of, created_at_text, NotificationItem.new.
  repeat case_match; simplify_eq/=; try done; apply IH.
Qed.

(** X1: a handler raises HTTP 500 exactly when the datastore handle is
    [None]; it then leaves the handle as it is.  With a datastore, the only
    HTTP error of [register] is 400, of [login] 401, of
    [create_notification] 404, and [list_notifications] and
    [mark_all_read] raise none. *)
Theorem handler_failure_codes (db : option Database) (r : request) :
  (status_of db r = Some 500 <-> db = None)
  /\ (db = None -> handle db r = None)
  /\ (forall s, status_of db r = Some s -> s = 500 \/ s ∈ own_status r).
Proof.
  destruct db as [d|].
  - assert (Hs : forall s, status_of (Some d) r = Some s ->
                           s ∈ own_status r).
    { intros s. destruct r as [e data|data|e data|email|data]; simpl.
      - destruct (register_cases e d data)
          as [[_ Hr]|[[_ Hr]|(_ & _ & Hr)]]; rewrite Hr; simpl;
          [|done|done].
        intros; simplify_eq. left.
      - destruct (find_one [("email", VStr (LoginRequest.email data))]
                           (coll d "authuser")) eqn:E.
        + rewrite (login_found _ _ _ E). cbn [fst].
          rewrite hash_password_eq. destruct (has_surrogate _); [done|].
          case_bool_decide; [by rewrite AuthResponse_new_status|].
          simpl. intros; simplify_eq. left.
        + rewrite (login_not_found _ _ E). simpl. intros; simplify_eq.
          left.
      - destruct (find_one
                    [("email", VStr (CreateNotificationRequest.email data))]
                    (coll d "authuser")) eqn:E.
        + by rewrite create_notification_known by eauto.
        + rewrite (create_notification_unknown _ _ _ E). simpl.
          intros; simplify_eq. left.
      - unfold list_notifications, bind, require_db, lift. cbn [fst].
        by rewrite collect_status.
      - by rewrite mark_all_read_eq. }
    split; [|split].
    + split; [|done]. intros H500. apply Hs in H500.
      destruct r; simpl in H500;
        repeat (apply elem_of_cons in H500 as [H500|H500];
                [discriminate|]);
        by apply elem_of_nil in H500.
    + done.
    + intros s Hst. right. by apply Hs.
  - split; [|split].
    + by destruct r.
    + by destruct r.
    + intros s Hst. left. destruct r; simpl in Hst; by simplify_eq.
Qed.

Lemma handler_failure_codes_witness :
  status_of None (Login Sample.ann_login) = Some 500
  /\ status_of (Some Sample.db_ann) (Login Sample.ann_wrong) = Some 401
  /\ handle None (MarkAllRead (MarkAllReadRequest.mk "ann@x.com")) = None.
Proof.
  split; [|split].
  - by apply (handler_failure_codes None (Login Sample.ann_login)).
  - destruct (handler_failure_codes (Some Sample.db_ann)
                (Login Sample.ann_wrong)) as (_ & _ & Hcodes).
    destruct (Hcodes 401 ltac:(vm_compute; reflexivity)) as [H | H].
    + discriminate H.
    + reflexivity.
  - by apply (handler_failure_codes None
                (MarkAllRead (MarkAllReadRequest.mk "ann@x.com"))).
Defined.

(** ** The password digest *)

Lemma hex_digit_is_hex (n : Z) : is_hex_digit (SHA256.hex_digit n) = true.
Proof.
  unfold SHA256.hex_digit. generalize (Z.to_nat n). intros k.
  do 16 (destruct k as [|k]; [reflexivity|]). by destruct k.
Qed.

Lemma hex_all_hex (bs : list Z) :
  forallb is_hex_digit (list_ascii_of_string (SHA256.hex bs)) = true.
Proof.
  induction bs as [|b bs IH]; [done|].
  cbn [SHA256.hex list_ascii_of_string forallb].
  by rewrite !hex_digit_is_hex, IH.
Qed.

(** X2: for a password that holds no lone surrogate the password hash is
    a string of exactly 64 lower-case hexadecimal digits; for a password
    that holds one, [_hash_password] raises [UnicodeEncodeError]. *)
Theorem hash_password_hex (pw : string) :
  (has_surrogate pw = false ->
   exists h, _hash_password pw = Return h
             /\ String.length h = 64%nat
             /\ forallb is_hex_digit (list_ascii_of_string h) = true)
  /\ (has_surrogate pw = true ->
      _hash_password pw
      = Raise (UnicodeEncodeError "surrogates not allowed")).
Proof.
  rewrite hash_password_eq. split; intros ->; [|done].
  exists (sha256_hex pw). split; [done|].
  split; [apply sha256_hex_length|].
  unfold sha256_hex, SHA256.hexdigest. apply hex_all_hex.
Qed.

Lemma hash_password_hex_witness :
  (exists h, _hash_password "pw1" = Return h
             /\ String.length h = 64%nat)
  /\ _hash_password Sample.surrogate
     = Raise (UnicodeEncodeError "surrogates not allowed").
Proof.
  destruct (hash_password_hex "pw1") as [Hok _].
  destruct (hash_password_hex Sample.surrogate) as [_ Hbad].
  split; [|by apply Hbad].
  destruct (Hok eq_refl) as (h & Hh & Hlen & _). eauto.
Defined.

(** ** Registration and login together *)

Lemma find_one_app_Some (q : query) (c c' : collection) (u : document) :
  find_one q c = Some u -> find_one q (c ++ c') = Some u.
Proof.
  unfold find_one. rewrite find_app.
  by destruct (find q c).
Qed.

Lemma find_one_snoc_new (q : query) (c : collection) (u : document) :
  find_one q c = None -> matches q u = true ->
  find_one q (c ++ [u]) = Some u.
Proof.
  unfold find_one. rewrite find_app. intros Hnone Hm.
  destruct (find q c); [|done].
  unfold find; cbn [List.filter]. by rewrite Hm.
Qed.

(** The outcome of a login is read off the record [find_one] gives. *)
Lemma login_outcome_find (d d' : Database) (data : LoginRequest.t) :
  find_one [("email", VStr (LoginRequest.email data))] (coll d' "authuser")
  = find_one [("email", VStr (LoginRequest.email data))]
             (coll d "authuser") ->
  (login data (Some d')).1 = (login data (Some d)).1.
Proof.
  intros Hfind.
  destruct (find_one [("email", VStr (LoginRequest.email data))]
                     (coll d "authuser")) eqn:E.
  - by rewrite (login_found _ _ _ Hfind), (login_found _ _ _ E).
  - by rewrite (login_not_found _ _ Hfind), (login_not_found _ _ E).
Qed.

Lemma stored_user_hash (e : env) (data : RegisterRequest.t) :
  stored e (user_doc data) !! "password_hash"
  = Some (VStr (sha256_hex (RegisterRequest.password data))).
Proof. rewrite stored_lookup_ne by done. reflexivity. Qed.

(** X3: after a successful registration, logging in with the same email
    and password returns the response the registration returned and leaves
    the store alone, and logging in with a password of another digest is
    refused with HTTP 401. *)
Theorem register_then_login
    (e : env) (d : Database) (data : RegisterRequest.t)
    (resp : AuthResponse.t) :
  (register e data (Some d)).1 = Return resp ->
  exists d1 : Database,
    (register e data (Some d)).2 = Some d1
    /\ login (credentials data) (Some d1) = (Return resp, Some d1)
    /\ resp = AuthResponse.mk (RegisterRequest.name data)
                              (RegisterRequest.email data) None
    /\ forall pw h,
         _hash_password pw = Return h ->
         Return h ≠ _hash_password (RegisterRequest.password data) ->
         login (LoginRequest.mk (RegisterRequest.email data) pw) (Some d1)
         = (Raise (HTTPException 401 "Invalid credentials"), Some d1).
Proof.
  intros Hresp.
  destruct (register_cases e d data)
    as [[_ Hr]|[[_ Hr]|(Hfree & Hs & Hr)]]; rewrite Hr in Hresp |- *;
    [done|done|].
  cbn [fst] in Hresp. simplify_eq. eexists.
  split; [reflexivity|].
  assert (Hfound : forall pw,
    find_one
      [("email",
        VStr (LoginRequest.email
                (LoginRequest.mk (RegisterRequest.email data) pw)))]
      (coll (set_coll d "authuser"
               (coll d "authuser" ++ [stored e (user_doc data)]))
            "authuser")
    = Some (stored e (user_doc data))).
  { intros pw. rewrite coll_set_coll_eq. apply find_one_snoc_new; [done|].
    apply matches_field, stored_user_email. }
  assert (Hhash : _hash_password (RegisterRequest.password data)
                  = Return (sha256_hex (RegisterRequest.password data)))
    by by rewrite hash_password_eq, Hs.
  split; [|split; [reflexivity|]].
  - unfold credentials. rewrite (login_found _ _ _ (Hfound _)).
    cbn [LoginRequest.password]. rewrite Hhash.
    rewrite bool_decide_eq_true_2 by apply stored_user_hash.
    unfold dict_get. by rewrite !stored_lookup_ne.
  - intros pw h Hh Hne. rewrite (login_found _ _ _ (Hfound pw)).
    cbn [LoginRequest.password]. rewrite Hh.
    rewrite bool_decide_eq_false_2; [done|].
    rewrite stored_user_hash. rewrite Hhash in Hne. congruence.
Qed.

Lemma register_then_login_witness :
  exists d1 : Database,
    (register Sample.at1 Sample.ann (Some Sample.empty_db)).2 = Some d1
    /\ login Sample.ann_login (Some d1)
       = (Return (AuthResponse.mk "Ann" "ann@x.com" None), Some d1)
    /\ login Sample.ann_wrong (Some d1)
       = (Raise (HTTPException 401 "Invalid credentials"), Some d1).
Proof.
  destruct (register_then_login Sample.at1 Sample.empty_db Sample.ann
              (AuthResponse.mk "Ann" "ann@x.com" None))
    as (d1 & Hd1 & Hlogin & _ & Hwrong).
  - reflexivity.
  - exists d1. split; [exact Hd1|]. split.
    + change Sample.ann_login with (credentials Sample.ann).
      exact Hlogin.
    + change Sample.ann_wrong
        with (LoginRequest.mk (RegisterRequest.email Sample.ann) "pw2").
      apply (Hwrong "pw2" (sha256_hex "pw2"));
        [exact (hash_password_eq "pw2") | vm_compute; discriminate].
Defined.

(** X4: registering one email, whether it succeeds or not, changes the
    outcome of a login with no other email. *)
Theorem register_keeps_other_logins
    (e : env) (d : Database) (data : RegisterRequest.t)
    (other : LoginRequest.t) :
  LoginRequest.email other ≠ RegisterRequest.email data ->
  exists d1 : Database,
    (register e data (Some d)).2 = Some d1
    /\ (login other (Some d1)).1 = (login other (Some d)).1.
Proof.
  intros Hne. destruct (register_keeps_handle e d data) as [d1 Hd1].
  exists d1. split; [done|]. apply login_outcome_find.
  by apply (register_other_email e d d1 data).
Qed.

Lemma register_keeps_other_logins_witness :
  exists d1 : Database,
    (register Sample.at2 Sample.ann_upper (Some Sample.db_ann)).2 = Some d1
    /\ (login Sample.ann_login (Some d1)).1
       = Return (AuthResponse.mk "Ann" "ann@x.com" None).
Proof.
  destruct (register_keeps_other_logins Sample.at2 Sample.db_ann
              Sample.ann_upper Sample.ann_login) as (d1 & Hd1 & Hsame).
  - discriminate.
  - exists d1. split; [exact Hd1|]. rewrite Hsame. reflexivity.
Defined.

(** ** Users are never removed *)

Lemma handle_users_prefix (d d' : Database) (r : request) :
  handle (Some d) r = Some d' ->
  coll d "authuser" `prefix_of` coll d' "authuser".
Proof.
  destruct r as [e data|data|e data|email|data]; simpl.
  - destruct (register_cases e d data)
      as [[_ Hr]|[[_ Hr]|(_ & _ & Hr)]]; rewrite Hr;
      intros; simplify_eq/=; [done|done|].
    rewrite coll_set_coll_eq. by apply prefix_app_r.
  - rewrite login_keeps_store. by intros; simplify_eq.
  - destruct (find_one
                [("email", VStr (CreateNotificationRequest.email data))]
                (coll d "authuser")) eqn:E.
    + rewrite create_notification_known by eauto. intros; simplify_eq/=.
      by rewrite coll_set_coll_ne.
    + rewrite (create_notification_unknown _ _ _ E).
      by intros; simplify_eq/=.
  - by intros; simplify_eq.
  - rewrite mark_all_read_eq. intros; simplify_eq/=.
    destruct (db_collections d !! "notification"); [|done].
    by rewrite coll_set_coll_ne.
Qed.

Lemma run_users_prefix (d : Database) (rs : list request) :
  exists d', run (Some d) rs = Some d'
             /\ coll d "authuser" `prefix_of` coll d' "authuser".
Proof.
  revert d. induction rs as [|r rs IH]; intros d.
  - by exists d.
  - destruct (handle_keeps_handle d r) as [d1 Hd1].
    destruct (IH d1) as (d' & Hrun & Hpre).
    exists d'. unfold run in *. simpl. rewrite Hd1. split; [done|].
    etrans; [|exact Hpre]. by apply (handle_users_prefix d d1 r).
Qed.

(** X5: no sequence of requests removes or replaces a User.  Whatever
    requests follow, the User collection only grows at its end, a login for
    an email that had a User keeps its outcome, and a registration with
    that email is refused with HTTP 400. *)
Theorem registered_users_stay
    (d : Database) (rs : list request) (data : LoginRequest.t)
    (e : env) (again : RegisterRequest.t) :
  (exists u, u ∈ coll d "authuser"
             /\ u !! "email" = Some (VStr (LoginRequest.email data))) ->
  RegisterRequest.email again = LoginRequest.email data ->
  exists d' : Database,
    run (Some d) rs = Some d'
    /\ coll d "authuser" `prefix_of` coll d' "authuser"
    /\ (login data (Some d')).1 = (login data (Some d)).1
    /\ (register e again (Some d')).1
       = Raise (HTTPException 400 "Email already registered").
Proof.
  intros (u & Hu & Hem) Heq.
  destruct (run_users_prefix d rs) as (d' & Hrun & [k Hk]).
  destruct (find_one_is_Some [("email", VStr (LoginRequest.email data))]
              (coll d "authuser") u Hu) as [u0 Hu0];
    [by apply matches_field|].
  assert (Hfind : find_one [("email", VStr (LoginRequest.email data))]
                           (coll d' "authuser") = Some u0)
    by (rewrite Hk; by apply find_one_app_Some).
  exists d'. split; [done|]. split; [by exists k|]. split.
  - apply login_outcome_find. by rewrite Hfind, Hu0.
  - rewrite register_taken; [done|]. rewrite Heq, Hfind. eauto.
Qed.

Lemma registered_users_stay_witness :
  exists d' : Database,
    run (Some Sample.db_ann)
        [Register Sample.at2 Sample.ann_upper;
         CreateNotification Sample.at3 Sample.first_note;
         MarkAllRead (MarkAllReadRequest.mk "ann@x.com")] = Some d'
    /\ (login Sample.ann_login (Some d')).1
       = Return (AuthResponse.mk "Ann" "ann@x.com" None)
    /\ (register Sample.at3 Sample.ann (Some d')).1
       = Raise (HTTPException 400 "Email already registered").
Proof.
  destruct (registered_users_stay Sample.db_ann
              [Register Sample.at2 Sample.ann_upper;
               CreateNotification Sample.at3 Sample.first_note;
               MarkAllRead (MarkAllReadRequest.mk "ann@x.com")]
              Sample.ann_login Sample.at3 Sample.ann)
    as (d' & Hrun & _ & Hlogin & Hreg).
  - exists (stored Sample.at1 (user_doc Sample.ann)).
    split; [left | reflexivity].
  - reflexivity.
  - exists d'. split; [exact Hrun|]. split; [|exact Hreg].
    rewrite Hlogin. reflexivity.
Defined.

(** ** Creating and listing together *)

Lemma item_of_stored_notification
    (e : env) (data : CreateNotificationRequest.t) :
  item_with_defaults (stored e (notification_doc data)) = new_item e data.
Proof.
  unfold item_with_defaults, new_item.
  rewrite stored_created_at.
  replace (stored e (notification_doc data) !! "_id")
    with (Some (VOid (fresh_id e))) by (symmetry; apply lookup_insert_eq).
  by rewrite !stored_lookup_ne.
Qed.

Lemma listed_Permutation_proper (email : string) (d d' : Database) :
  find [("user_email", VStr email)] (coll d' "notification")
  ≡ₚ find [("user_email", VStr email)] (coll d "notification") ->
  listed email d' ≡ₚ listed email d.
Proof. intros H. by rewrite !listed_Permutation. Qed.

(** X6: after a notification is created for a known user in a store of
    well-formed notifications, the listing for that email holds the items
    it held before and one more: the new notification, unread, with the
    submitted title and body and the time of the insert. *)
Theorem create_then_list
    (e : env) (d : Database) (data : CreateNotificationRequest.t) :
  is_Some (find_one
             [("email", VStr (CreateNotificationRequest.email data))]
             (coll d "authuser")) ->
  (forall n, n ∈ coll d "notification" -> is_Notification n = true) ->
  exists (d1 : Database) (before after : list NotificationItem.t),
    (create_notification e data (Some d)).2 = Some d1
    /\ list_notifications (CreateNotificationRequest.email data) (Some d)
       = (Return before, Some d)
    /\ list_notifications (CreateNotificationRequest.email data) (Some d1)
       = (Return after, Some d1)
    /\ after ≡ₚ new_item e data :: before.
Proof.
  intros Hu Hwf.
  set (em := CreateNotificationRequest.email data).
  set (n := stored e (notification_doc data)).
  set (d1 := set_coll d "notification" (coll d "notification" ++ [n])).
  exists d1, (map item_with_defaults (listed em d)),
    (map item_with_defaults (listed em d1)).
  split; [by rewrite create_notification_known|].
  split.
  { apply list_notifications_well_typed. intros m Hm _.
    by apply is_Notification_well_typed, Hwf. }
  split.
  { apply list_notifications_well_typed. intros m Hm _.
    apply is_Notification_well_typed. unfold d1 in Hm.
    rewrite coll_set_coll_eq in Hm. apply elem_of_app in Hm as [Hm|Hm].
    - by apply Hwf.
    - apply list_elem_of_singleton in Hm. subst m.
      apply stored_notification. }
  rewrite <- item_of_stored_notification. fold n.
  change (item_with_defaults n :: map item_with_defaults (listed em d))
    with (map item_with_defaults (n :: listed em d)).
  apply Permutation_map.
  rewrite !listed_Permutation. unfold d1.
  rewrite coll_set_coll_eq, find_app.
  assert (Hm : matches [("user_email", VStr em)] n = true).
  { apply matches_field. unfold n. by rewrite stored_lookup_ne. }
  unfold find at 2; cbn [List.filter]. rewrite Hm.
  by rewrite <- Permutation_cons_append.
Qed.

Lemma create_then_list_witness :
  exists (d1 : Database) (after : list NotificationItem.t),
    (create_notification Sample.at2 Sample.first_note
       (Some Sample.db_ann)).2 = Some d1
    /\ list_notifications "ann@x.com" (Some d1) = (Return after, Some d1)
    /\ after
       ≡ₚ [NotificationItem.mk "000000000000000000000002" "Hello" "first"
             false (Some "2023-11-14T22:13:20.500000")].
Proof.
  destruct (create_then_list Sample.at2 Sample.db_ann Sample.first_note)
    as (d1 & before & after & Hd1 & Hbefore & Hafter & Hperm).
  - exists (stored Sample.at1 (user_doc Sample.ann)). reflexivity.
  - intros n Hn. by apply elem_of_nil in Hn.
  - exists d1, after. split; [exact Hd1|]. split; [exact Hafter|].
    rewrite Hperm.
    assert (Hnil : before = []).
    { assert (Hcomp : list_notifications "ann@x.com" (Some Sample.db_ann)
                      = (Return [], Some Sample.db_ann)) by reflexivity.
      change (CreateNotificationRequest.email Sample.first_note)
        with "ann@x.com" in Hbefore.
      rewrite Hcomp in Hbefore. apply (f_equal fst) in Hbefore.
      cbn [fst] in Hbefore. by injection Hbefore. }
    rewrite Hnil. reflexivity.
Defined.

Lemma find_snoc_other (q : query) (c : collection) (n : document) :
  matches q n = false -> find q (c ++ [n]) = find q c.
Proof.
  intros Hm. rewrite find_app. unfold find at 2; cbn [List.filter].
  rewrite Hm. apply app_nil_r.
Qed.

(** The listing is a function of the notifications the filter selects. *)
Lemma list_notifications_find (email : string) (d d' : Database) :
  find [("user_email", VStr email)] (coll d' "notification")
  = find [("user_email", VStr email)] (coll d "notification") ->
  (list_notifications email (Some d')).1
  = (list_notifications email (Some d)).1.
Proof.
  intros Hfind. unfold list_notifications, bind, require_db, lift.
  cbn [fst]. by rewrite Hfind.
Qed.

(** X7: a notification created for one email shows up in the listing of
    no other email, and creating it leaves the User collection alone. *)
Theorem create_notification_frame
    (e : env) (d : Database) (data : CreateNotificationRequest.t)
    (other : string) :
  other ≠ CreateNotificationRequest.email data ->
  exists d1 : Database,
    (create_notification e data (Some d)).2 = Some d1
    /\ coll d1 "authuser" = coll d "authuser"
    /\ (list_notifications other (Some d1)).1
       = (list_notifications other (Some d)).1.
Proof.
  intros Hne.
  destruct (find_one
              [("email", VStr (CreateNotificationRequest.email data))]
              (coll d "authuser")) eqn:E.
  - rewrite create_notification_known by eauto. eexists.
    split; [reflexivity|]. split; [by rewrite coll_set_coll_ne|].
    apply list_notifications_find. rewrite coll_set_coll_eq.
    apply find_snoc_other. apply not_true_is_false.
    rewrite matches_field, stored_lookup_ne by done.
    change (notification_doc data !! "user_email")
      with (Some (VStr (CreateNotificationRequest.email data))).
    congruence.
  - rewrite (create_notification_unknown _ _ _ E). by exists d.
Qed.

Lemma create_notification_frame_witness :
  exists d1 : Database,
    (create_notification Sample.at2 Sample.first_note
       (Some Sample.db_ann)).2 = Some d1
    /\ coll d1 "authuser" = coll Sample.db_ann "authuser"
    /\ (list_notifications "bob@x.com" (Some d1)).1 = Return [].
Proof.
  destruct (create_notification_frame Sample.at2 Sample.db_ann
              Sample.first_note "bob@x.com") as (d1 & Hd1 & Hu & Hl).
  - discriminate.
  - exists d1. split; [exact Hd1|]. split; [exact Hu|].
    rewrite Hl. reflexivity.
Defined.

(** ** What marking as read leaves alone *)

Lemma update_many_mark (email : string) (c : collection) :
  update_many (unread_of email) "read" (VBool true) c = map (mark email) c.
Proof. reflexivity. Qed.

Lemma mark_lookup_ne (email : string) (n : document) (k : string) :
  k ≠ "read" -> mark email n !! k = n !! k.
Proof.
  intros Hk. unfold mark. destruct (matches _ n); [|done].
  by rewrite lookup_insert_ne.
Qed.

Lemma mark_other_email (email : string) (n : document) :
  n !! "user_email" ≠ Some (VStr email) -> mark email n = n.
Proof.
  intros Hne. unfold mark.
  destruct (matches (unread_of email) n) eqn:E; [|done].
  apply matches_unread in E as [E _]. done.
Qed.

Lemma matches_mark (email k : string) (v : value) (n : document) :
  k ≠ "read" ->
  matches [(k, v)] (mark email n) = matches [(k, v)] n.
Proof.
  intros Hk. unfold matches; simpl. by rewrite mark_lookup_ne.
Qed.

Lemma find_map_mark (email other : string) (c : collection) :
  find [("user_email", VStr other)] (map (mark email) c)
  = map (mark email) (find [("user_email", VStr other)] c).
Proof.
  unfold find. induction c as [|n c IH]; [done|].
  cbn [map List.filter]. rewrite matches_mark by done.
  destruct (matches _ n); cbn [map]; by rewrite IH.
Qed.

Lemma map_mark_other (email other : string) (c : collection) :
  other ≠ email ->
  map (mark email) (find [("user_email", VStr other)] c)
  = find [("user_email", VStr other)] c.
Proof.
  intros Hne. rewrite <- (map_id (find _ c)) at 2.
  apply map_ext_in. intros n Hn. apply list_elem_of_In in Hn.
  apply elem_of_find in Hn as [_ Hm]. apply matches_field in Hm.
  apply mark_other_email. rewrite Hm. congruence.
Qed.

Lemma mark_all_read_notifications
    (d : Database) (data : MarkAllReadRequest.t) :
  exists d1 : Database,
    (mark_all_read data (Some d)).2 = Some d1
    /\ coll d1 "authuser" = coll d "authuser"
    /\ coll d1 "notification"
       = map (mark (MarkAllReadRequest.email data)) (coll d "notification").
Proof.
  rewrite mark_all_read_eq. eexists. split; [reflexivity|].
  destruct (db_collections d !! "notification") as [c|] eqn:E.
  - assert (Hc : coll d "notification" = c) by (unfold coll; by rewrite E).
    split; [by rewrite coll_set_coll_ne|].
    by rewrite coll_set_coll_eq, Hc.
  - assert (Hc : coll d "notification" = []) by (unfold coll; by rewrite E).
    split; [done|]. by rewrite Hc.
Qed.

(** X8: [mark_all_read] touches nothing but the [read] field of the
    notifications of the given email.  The User collection is unchanged;
    the notification collection keeps its length and order; a notification
    of another email is unchanged; every field other than [read] is
    unchanged; and the listing of any other email is what it was. *)
Theorem mark_all_read_frame (d : Database) (data : MarkAllReadRequest.t) :
  exists d1 : Database,
    (mark_all_read data (Some d)).2 = Some d1
    /\ coll d1 "authuser" = coll d "authuser"
    /\ length (coll d1 "notification") = length (coll d "notification")
    /\ (forall i n, coll d "notification" !! i = Some n ->
          exists n', coll d1 "notification" !! i = Some n'
            /\ (forall k, k ≠ "read" -> n' !! k = n !! k)
            /\ (n !! "user_email"
                ≠ Some (VStr (MarkAllReadRequest.email data)) -> n' = n))
    /\ (forall other, other ≠ MarkAllReadRequest.email data ->
          (list_notifications other (Some d1)).1
          = (list_notifications other (Some d)).1).
Proof.
  destruct (mark_all_read_notifications d data) as (d1 & Hd1 & Hu & Hn).
  exists d1. split; [done|]. split; [done|].
  split; [by rewrite Hn, length_map|]. split.
  - intros i n Hi. exists (mark (MarkAllReadRequest.email data) n).
    split.
    + rewrite Hn.
      change (map ?f ?l) with (f <$> l).
      by rewrite list_lookup_fmap, Hi.
    + split; [intros k Hk; by apply mark_lookup_ne|].
      apply mark_other_email.
  - intros other Hne. apply list_notifications_find.
    by rewrite Hn, find_map_mark, map_mark_other.
Qed.

Lemma mark_all_read_frame_witness :
  exists d1 : Database,
    (mark_all_read (MarkAllReadRequest.mk "bob@x.com")
       (Some Sample.db_two)).2 = Some d1
    /\ (list_notifications "ann@x.com" (Some d1)).1
       = (list_notifications "ann@x.com" (Some Sample.db_two)).1.
Proof.
  destruct (mark_all_read_frame Sample.db_two
              (MarkAllReadRequest.mk "bob@x.com"))
    as (d1 & Hd1 & _ & _ & _ & Hother).
  exists d1. split; [exact Hd1|]. apply Hother. discriminate.
Defined.

(** ** Sorting commutes with a map that keeps the order *)

Section merge_sort_map.
Context {A : Type} (R : relation A) `{!RelDecision R} (f : A -> A).
Hypothesis R_f : forall x y, R (f x) (f y) <-> R x y.

Lemma list_merge_map (l1 l2 : list A) :
  list_merge R (map f l1) (map f l2) = map f (list_merge R l1 l2).
Proof.
  revert l2. induction l1 as [|x1 l1 IH1]; intros l2.
  - by destruct l2.
  - induction l2 as [|x2 l2 IH2]; [done|].
    cbn [map]. rewrite !list_merge_cons.
    destruct (decide (R (f x1) (f x2))) as [H1|H1],
             (decide (R x1 x2)) as [H2|H2].
    + cbn [map]. f_equal. apply (IH1 (x2 :: l2)).
    + exfalso. by apply H2, R_f.
    + exfalso. by apply H1, R_f.
    + cbn [map]. f_equal. apply IH2.
Qed.

Lemma merge_list_to_stack_map (st : list (option (list A))) (l : list A) :
  merge_list_to_stack R (map (option_map (map f)) st) (map f l)
  = map (option_map (map f)) (merge_list_to_stack R st l).
Proof.
  revert l. induction st as [|[l'|] st IH]; intros l; simpl; [done| |done].
  by rewrite list_merge_map, IH.
Qed.

Lemma merge_stack_map (st : list (option (list A))) :
  merge_stack R (map (option_map (map f)) st) = map f (merge_stack R st).
Proof.
  induction st as [|[l'|] st IH]; simpl; [done| |done].
  by rewrite IH, list_merge_map.
Qed.

Lemma merge_sort_aux_map (st : list (option (list A))) (l : list A) :
  merge_sort_aux R (map (option_map (map f)) st) (map f l)
  = map f (merge_sort_aux R st l).
Proof.
  revert st. induction l as [|x l IH]; intros st; simpl.
  - apply merge_stack_map.
  - rewrite <- IH. f_equal.
    apply (merge_list_to_stack_map st [x]).
Qed.

Lemma merge_sort_map (l : list A) :
  merge_sort R (map f l) = map f (merge_sort R l).
Proof. apply (merge_sort_aux_map [] l). Qed.

End merge_sort_map.

Lemma listed_mark (email : string) (d d1 : Database) :
  coll d1 "notification" = map (mark email) (coll d "notification") ->
  listed email d1 = map (mark email) (listed email d).
Proof.
  intros Hn. unfold listed, sort_desc. rewrite Hn, find_map_mark.
  apply merge_sort_map. intros x y. unfold desc_by, sort_key.
  by rewrite !mark_lookup_ne.
Qed.

Lemma item_of_marked (email : string) (n : document) :
  is_Notification n = true ->
  n !! "user_email" = Some (VStr email) ->
  item_with_defaults (mark email n) = read_item (item_with_defaults n).
Proof.
  intros Hwf Hem. unfold mark.
  destruct (matches (unread_of email) n) eqn:E.
  - unfold item_with_defaults, read_item; simpl.
    rewrite lookup_insert_eq. by rewrite !lookup_insert_ne.
  - unfold is_Notification in Hwf.
    destruct (n !! "read") as [[ |[]| | | | ]|] eqn:Hr;
      rewrite ?andb_false_r in Hwf; try done.
    + unfold item_with_defaults, read_item; simpl. by rewrite Hr.
    + exfalso. apply not_true_iff_false in E. apply E.
      by apply matches_unread.
Qed.

(** X9: in a store of well-formed notifications, the listing after
    [mark_all_read] is the listing before it with every item's [read] flag
    set: the same items in the same order, all read. *)
Theorem mark_all_read_then_list
    (d : Database) (data : MarkAllReadRequest.t) :
  (forall n, n ∈ coll d "notification" -> is_Notification n = true) ->
  exists (d1 : Database) (items : list NotificationItem.t),
    (mark_all_read data (Some d)).2 = Some d1
    /\ list_notifications (MarkAllReadRequest.email data) (Some d)
       = (Return items, Some d)
    /\ list_notifications (MarkAllReadRequest.email data) (Some d1)
       = (Return (map read_item items), Some d1).
Proof.
  intros Hwf. set (em := MarkAllReadRequest.email data).
  destruct (mark_all_read_notifications d data) as (d1 & Hd1 & _ & Hn).
  fold em in Hn.
  exists d1, (map item_with_defaults (listed em d)).
  split; [done|]. split.
  { apply list_notifications_well_typed. intros n Hin _.
    by apply is_Notification_well_typed, Hwf. }
  rewrite list_notifications_well_typed.
  - rewrite (listed_mark em d d1 Hn), !map_map. do 2 f_equal.
    apply map_ext_in. intros n Hin. apply list_elem_of_In in Hin.
    apply elem_of_listed in Hin as [Hin Hem].
    apply item_of_marked; [by apply Hwf | done].
  - intros n Hin _. rewrite Hn in Hin.
    apply list_elem_of_In, in_map_iff in Hin as (m & <- & Hm).
    apply list_elem_of_In in Hm. apply is_Notification_well_typed.
    unfold mark. destruct (matches _ m);
      [apply marked_is_Notification|]; by apply Hwf.
Qed.

Lemma mark_all_read_then_list_witness :
  exists d1 : Database,
    (mark_all_read (MarkAllReadRequest.mk "ann@x.com")
       (Some Sample.db_two)).2 = Some d1
    /\ list_notifications "ann@x.com" (Some d1)
       = (Return
            [NotificationItem.mk "000000000000000000000003" "Again"
               "second" true (Some "2023-11-14T22:13:21");
             NotificationItem.mk "000000000000000000000002" "Hello"
               "first" true (Some "2023-11-14T22:13:20.500000")],
          Some d1).
Proof.
  destruct (mark_all_read_then_list Sample.db_two
              (MarkAllReadRequest.mk "ann@x.com"))
    as (d1 & items & Hd1 & Hbefore & Hafter).
  - intros n Hn.
    apply elem_of_cons in Hn as [-> | Hn]; [reflexivity|].
    apply list_elem_of_singleton in Hn. subst n. reflexivity.
  - exists d1. split; [exact Hd1|].
    change (MarkAllReadRequest.email (MarkAllReadRequest.mk "ann@x.com"))
      with "ann@x.com" in *.
    rewrite Hafter. apply (f_equal fst) in Hbefore.
    assert (Hcomp : (list_notifications "ann@x.com"
                       (Some Sample.db_two)).1
                    = Return
            [NotificationItem.mk "000000000000000000000003" "Again"
               "second" false (Some "2023-11-14T22:13:21");
             NotificationItem.mk "000000000000000000000002" "Hello"
               "first" false (Some "2023-11-14T22:13:20.500000")])
      by (vm_compute; reflexivity).
    rewrite Hcomp in Hbefore. cbn [fst] in Hbefore.
    injection Hbefore as <-. reflexivity.
Defined.

(** ** A document the listing cannot render *)

Lemma collect_raise (raw : collection) (items : list NotificationItem.t)
    (n : document) (e : exn) :
  n ∈ raw -> item_of n = Raise e ->
  exists e', collect raw items = Raise e'.
Proof.
  revert items. induction raw as [|m raw IH]; intros items Hin Hn.
  - by apply elem_of_nil in Hin.
  - simpl. destruct (item_of m) as [it|e0] eqn:Em; [|eauto].
    apply elem_of_cons in Hin as [-> | Hin]; [congruence|].
    by apply IH.
Qed.

(** X10: one stored notification whose [created_at] is neither a
    timestamp nor a false value makes the whole listing of its email fail:
    no item is returned, the handler ends with an exception that is not an
    [HTTPException], and the store is left alone. *)
Theorem list_notifications_odd_created_at
    (d : Database) (email : string) (n : document) (v : value) :
  n ∈ coll d "notification" ->
  n !! "user_email" = Some (VStr email) ->
  n !! "created_at" = Some v ->
  py_bool v = true ->
  (forall t, v ≠ VDate t) ->
  exists e,
    list_notifications email (Some d) = (Raise e, Some d)
    /\ http_status (Raise e : outcome (list NotificationItem.t)) = None.
Proof.
  intros Hin Hem Hat Htrue Hdate.
  assert (Hitem : item_of n = Raise (AttributeError "isoformat")).
  { unfold item_of, created_at_text, dict_get. rewrite Hat; simpl.
    rewrite Htrue. destruct v; try done. by destruct (Hdate t). }
  assert (Hlisted : n ∈ listed email d) by by apply elem_of_listed.
  destruct (collect_raise _ [] n _ Hlisted Hitem) as [e He].
  exists e. unfold list_notifications, bind, require_db, lift.
  fold (listed email d). rewrite He. split; [done|].
  rewrite <- He. apply collect_status.
Qed.

Lemma list_notifications_odd_created_at_witness :
  exists e,
    list_notifications "ann@x.com" (Some Sample.db_odd)
    = (Raise e, Some Sample.db_odd)
    /\ http_status (Raise e : outcome (list NotificationItem.t)) = None.
Proof.
  apply (list_notifications_odd_created_at Sample.db_odd "ann@x.com"
           Sample.odd (VStr "yesterday")).
  - unfold Sample.db_odd. rewrite coll_set_coll_eq.
    apply elem_of_app. right. left.
  - reflexivity.
  - reflexivity.
  - reflexivity.
  - discriminate.
Defined.

(** ** More on the diagnostics *)

Lemma py_take_all (n : nat) (s : string) :
  (py_len s <= n)%nat -> py_take n s = s.
Proof.
  revert n. induction s as [|c s IH]; intros n Hn; simpl in *; [done|].
  destruct (is_continuation c).
  - by rewrite IH.
  - destruct n as [|n]; [lia|]. rewrite IH; [done | lia].
Qed.

Lemma py_len_take_eq (n : nat) (s : string) :
  py_len (py_take n s) = Nat.min n (py_len s).
Proof.
  revert n. induction s as [|c s IH]; intros n; simpl.
  - by rewrite Nat.min_0_r.
  - destruct (is_continuation c) eqn:E; simpl; rewrite ?E; [apply IH|].
    destruct n as [|n]; simpl; rewrite ?E; [done|]. by rewrite IH.
Qed.

(** X11: the text of an enumeration error is reported with exactly its
    first 50 characters, and whole when it has no more than 50; the
    collection names are reported whole when there are no more than 10. *)
Theorem test_database_truncation
    (d : Database) (getenv : string -> option string) :
  (forall e, exists r,
     test_database (Some d) (inr e) getenv = Return r
     /\ Diagnostics.database r
        = "⚠️  Connected but Error: " +:+ py_take 50 e
     /\ py_len (py_take 50 e) = Nat.min 50 (py_len e)
     /\ ((py_len e <= 50)%nat -> py_take 50 e = e))
  /\ (forall names, exists r,
        test_database (Some d) (inl names) getenv = Return r
        /\ ((length names <= 10)%nat -> Diagnostics.collections r = names)).
Proof.
  split.
  - intros e. eexists. split; [reflexivity|]. split; [done|].
    split; [apply py_len_take_eq | apply py_take_all].
  - intros names. eexists. split; [reflexivity|]. simpl.
    intros Hlen. by apply take_ge.
Qed.

Lemma test_database_truncation_witness :
  exists r,
    test_database (Some Sample.empty_db) (inr "boom") (fun _ => None)
    = Return r
    /\ Diagnostics.database r = "⚠️  Connected but Error: boom".
Proof.
  destruct (test_database_truncation Sample.empty_db (fun _ => None))
    as [Herr _].
  destruct (Herr "boom") as (r & Hr & Hdb & _ & Hall).
  exists r. split; [exact Hr|]. rewrite Hdb, Hall; [reflexivity|].
  vm_compute. lia.
Defined.

(** X12: the [database_url] and [database_name] fields report only
    whether the two environment variables are set and not empty, whatever
    the handle and the enumeration; [backend] is always running;
    [connection_status] is "Connected" exactly when there is a handle; and
    without a handle no collection is reported. *)
Theorem test_database_environment
    (db : option Database) (enumeration : list string + string)
    (getenv : string -> option string) :
  exists r,
    test_database db enumeration getenv = Return r
    /\ Diagnostics.backend r = "✅ Running"
    /\ Diagnostics.database_url r
       = Some (if env_set getenv "DATABASE_URL" then "✅ Set"
               else "❌ Not Set")
    /\ Diagnostics.database_name r
       = Some (if env_set getenv "DATABASE_NAME" then "✅ Set"
               else "❌ Not Set")
    /\ (getenv "DATABASE_URL" = Some EmptyString ->
        Diagnostics.database_url r = Some "❌ Not Set")
    /\ (Diagnostics.connection_status r = "Connected" <-> is_Some db)
    /\ (db = None ->
        Diagnostics.database r = "⚠️  Available but not initialized"
        /\ Diagnostics.collections r = []).
Proof.
  eexists. split; [reflexivity|].
  destruct db as [d|]; [destruct enumeration as [names|e]|]; simpl;
    (split; [done|]; split; [done|]; split; [done|]; split;
     [intros Hempty; unfold env_set; by rewrite Hempty|];
     split; [split; [eauto | done] |]); try done.
  all: try (split; [|done]; intros H; discriminate H).
  all: split; [intros H; discriminate H | by intros [? ?]].
Qed.

Lemma test_database_environment_witness :
  exists r,
    test_database None (inl [])
      (fun k => if bool_decide (k = "DATABASE_URL") then Some EmptyString
                else Some "app") = Return r
    /\ Diagnostics.database_url r = Some "❌ Not Set"
    /\ Diagnostics.database_name r = Some "✅ Set".
Proof.
  destruct (test_database_environment None (inl [])
    (fun k => if bool_decide (k = "DATABASE_URL") then Some EmptyString
              else Some "app"))
    as (r & Hr & _ & _ & Hname & Hurl & _).
  exists r. split; [exact Hr|]. split; [by apply Hurl | exact Hname].
Defined.

(** ** Notifications refer to Users *)

Lemma refs_ok_grow (d d' : Database) :
  refs_ok d ->
  coll d "authuser" `prefix_of` coll d' "authuser" ->
  coll d' "notification" = coll d "notification" ->
  refs_ok d'.
Proof.
  intros Hok [k Hk] Hn n Hin. rewrite Hn in Hin.
  destruct (Hok n Hin) as (em & u & Hem & Hu & Hue).
  exists em, u. split; [done|]. split; [|done].
  rewrite Hk. apply elem_of_app. by left.
Qed.

Lemma handle_refs_ok (d d' : Database) (r : request) :
  refs_ok d -> handle (Some d) r = Some d' -> refs_ok d'.
Proof.
  intros Hok Hd'.
  pose proof (handle_users_prefix d d' r Hd') as Hpre.
  destruct r as [e data|data|e data|email|data]; simpl in Hd'.
  - apply (refs_ok_grow d d' Hok Hpre).
    destruct (register_cases e d data)
      as [[_ Hr]|[[_ Hr]|(_ & _ & Hr)]]; rewrite Hr in Hd';
      simplify_eq/=; [done|done|].
    by rewrite coll_set_coll_ne.
  - rewrite login_keeps_store in Hd'. by simplify_eq.
  - destruct (find_one
                [("email", VStr (CreateNotificationRequest.email data))]
                (coll d "authuser")) as [u0|] eqn:E.
    + rewrite create_notification_known in Hd' by eauto.
      simplify_eq/=. intros n.
      rewrite coll_set_coll_eq, coll_set_coll_ne by done.
      intros [Hin | Hin]%elem_of_app.
      * by apply Hok.
      * apply list_elem_of_singleton in Hin. subst n.
        apply find_one_Some in E as [Hu0 Hm]. apply matches_field in Hm.
        exists (CreateNotificationRequest.email data), u0.
        split; [by rewrite stored_lookup_ne | done].
    + rewrite (create_notification_unknown _ _ _ E) in Hd'.
      by simplify_eq/=.
  - by simplify_eq/=.
  - destruct (mark_all_read_notifications d data) as (d1 & Hd1 & Hu & Hn).
    rewrite Hd' in Hd1. simplify_eq. intros n. rewrite Hn, Hu.
    intros (m & <- & Hm)%list_elem_of_In%in_map_iff.
    apply list_elem_of_In in Hm.
    destruct (Hok m Hm) as (em & u & Hem & Hin & Hue).
    exists em, u. by rewrite mark_lookup_ne.
Qed.

Lemma run_refs_ok (d : Database) (rs : list request) :
  refs_ok d -> exists d', run (Some d) rs = Some d' /\ refs_ok d'.
Proof.
  revert d. induction rs as [|r rs IH]; intros d Hok.
  - by exists d.
  - destruct (handle_keeps_handle d r) as [d1 Hd1].
    destruct (IH d1 (handle_refs_ok d d1 r Hok Hd1)) as (d' & Hrun & Hok').
    exists d'. unfold run in *. simpl. by rewrite Hd1.
Qed.

(** X13: in every store the service reaches from an empty database, by
    any sequence of requests, no two Users share an email, every User and
    every Notification has the fields of the data model with their types,
    and every Notification carries the email of a stored User. *)
Theorem reachable_store_invariants (name : string) (rs : list request) :
  exists d : Database,
    run (Some (mkDatabase name ∅)) rs = Some d
    /\ (forall em, (users_with em (Some d) <= 1)%nat)
    /\ (forall u, u ∈ coll d "authuser" -> is_User u = true)
    /\ (forall n, n ∈ coll d "notification" -> is_Notification n = true)
    /\ refs_ok d.
Proof.
  destruct (run_store_ok (mkDatabase name ∅) rs (empty_store_ok name))
    as (d & Hrun & Hu & Hn & Huniq).
  destruct (run_refs_ok (mkDatabase name ∅) rs) as (d' & Hrun' & Hrefs).
  { intros n Hn'. by apply elem_of_nil in Hn'. }
  rewrite Hrun in Hrun'. simplify_eq.
  by exists d'.
Qed.

(** ** Requests that only read *)

(** X14: a login and a listing never write: whatever the request and
    whatever its outcome, the datastore handle and every collection are
    after it what they were before. *)
Theorem read_only_requests
    (db : option Database) (data : LoginRequest.t) (email : string) :
  (login data db).2 = db /\ (list_notifications email db).2 = db.
Proof.
  destruct db as [d|]; [|done].
  split; [apply login_keeps_store | reflexivity].
Qed.
